(** * XML validation command line: resource resolver and validation reporter

    A shallow embedding of [validator/__main__.py].  The program is a thin
    shell around four external collaborators (URL parsing, an HTTP client,
    an FTP client and an XML-Schema validation engine) and the local file
    system.  The collaborators are gathered in a record [Env] of oracles;
    the code of the program itself ([_process_http_reponse], [xmlFromURL],
    [cli]) is translated statement by statement on top of them, in a small
    monad that carries Python exceptions and a log of the observable
    events (network calls, validator calls, lines echoed to the terminal).

    Python text ([str]) is represented by its UTF-8 encoding, a [string];
    raw data ([bytes]) by [list byte]. *)

From Stdlib Require Import String Ascii List Bool Arith Lia.
From Stdlib Require Import NArith DecimalString.
From Stdlib.Strings Require Import Byte.
Import ListNotations.
Local Open Scope list_scope.
Local Open Scope string_scope.

(* ===================================================================== *)
(** ** Python built-ins used by the program *)
(* ===================================================================== *)

Module Py.

(** [s.startswith(p)] *)
Definition startswith (p s : string) : bool := String.prefix p s.

(** [p in s] for two strings: [p] occurs somewhere in [s]. *)
Fixpoint contains (p s : string) : bool :=
  String.prefix p s ||
  match s with
  | EmptyString => false
  | String _ s' => contains p s'
  end.

(** [s.replace(old, new)] for a non-empty [old]: occurrences are found
    from left to right and do not overlap.  [skip] counts the characters
    of a matched occurrence that are still to be dropped. *)
Fixpoint replace_from (old new : string) (skip : nat) (s : string) : string :=
  match s with
  | EmptyString => EmptyString
  | String c s' =>
      match skip with
      | S k => replace_from old new k s'
      | O =>
          if String.prefix old s
          then new ++ replace_from old new (String.length old - 1) s'
          else String c (replace_from old new 0 s')
      end
  end.

Definition replace (old new s : string) : string := replace_from old new 0 s.

(** [str(n)] for a non-negative integer. *)
Definition str_of_nat (n : nat) : string :=
  NilEmpty.string_of_uint (Nat.to_uint n).

(** Truth value of a string: [if s:] holds when [s] is not empty. *)
Definition truthy (s : string) : bool :=
  match s with
  | EmptyString => false
  | String _ _ => true
  end.

Definition has_slash (s : string) : bool := contains "/" s.

(** [os.path.basename] on a POSIX system: what follows the last slash. *)
Fixpoint basename (s : string) : string :=
  match s with
  | EmptyString => EmptyString
  | String c s' =>
      if has_slash s' then basename s'
      else if Ascii.eqb c "/" then s' else s
  end.

(** *** [bytes.decode("UTF-8")]

    Text being represented by its UTF-8 encoding, decoding checks that the
    bytes are well-formed UTF-8 and keeps them; ill-formed input is the
    [UnicodeDecodeError] of Python ([None] here). *)

Definition in_range (lo hi : N) (b : byte) : bool :=
  (N.leb lo (Byte.to_N b) && N.leb (Byte.to_N b) hi)%bool.

Definition continuation (b : byte) : bool := in_range 128 191 b.

Fixpoint utf8_wellformed (bs : list byte) : bool :=
  match bs with
  | [] => true
  | b :: r1 =>
      if in_range 0 127 b then utf8_wellformed r1
      else
        match r1 with
        | [] => false
        | c1 :: r2 =>
            if in_range 194 223 b then continuation c1 && utf8_wellformed r2
            else
              match r2 with
              | [] => false
              | c2 :: r3 =>
                  let second3 :=
                    if in_range 224 224 b then in_range 160 191 c1
                    else if in_range 237 237 b then in_range 128 159 c1
                    else in_range 225 239 b && continuation c1 in
                  if in_range 224 239 b
                  then second3 && continuation c2 && utf8_wellformed r3
                  else
                    match r3 with
                    | [] => false
                    | c3 :: r4 =>
                        let second4 :=
                          if in_range 240 240 b then in_range 144 191 c1
                          else if in_range 244 244 b then in_range 128 143 c1
                          else in_range 241 243 b && continuation c1 in
                        second4 && continuation c2 && continuation c3
                        && utf8_wellformed r4
                    end
              end
        end
  end.

Definition decode_utf8 (bs : list byte) : option string :=
  if utf8_wellformed bs then Some (string_of_list_byte bs) else None.

(** *** [io.BytesIO]

    An in-memory binary stream: its contents and the position of the next
    read or write. *)

Record BytesIO : Type := mkBytesIO { buffer : list byte; position : nat }.

(** [BytesIO()] *)
Definition BytesIO_new : BytesIO := mkBytesIO [] 0.

(** [r.write(data)]: the data overwrite the contents from the current
    position on (a position beyond the end is padded with zero bytes) and
    the position moves behind what was written; writing nothing changes
    nothing. *)
Definition write (r : BytesIO) (data : list byte) : BytesIO :=
  match data with
  | [] => r
  | _ :: _ =>
      let pad := repeat Byte.x00 (position r - List.length (buffer r)) in
      mkBytesIO
        (firstn (position r) (buffer r) ++ pad ++ data
           ++ skipn (position r + List.length data) (buffer r))%list
        (position r + List.length data)
  end.

(** [r.read()]: everything from the current position to the end; the
    position moves to the end. *)
Definition read (r : BytesIO) : list byte * BytesIO :=
  (skipn (position r) (buffer r),
   mkBytesIO (buffer r) (Nat.max (position r) (List.length (buffer r)))).

(** [r.getvalue()]: the whole contents, whatever the position. *)
Definition getvalue (r : BytesIO) : list byte := buffer r.

End Py.

(* ===================================================================== *)
(** ** Exceptions, events and the monad of the program *)
(* ===================================================================== *)

(** The exception classes the [except] clauses of the program name, and two
    more that its collaborators raise and no clause names. *)
Inductive exn_class : Type :=
| ValueError                 (* built-in; base of MissingSchema, InvalidSchema,
                                InvalidURL and UnicodeDecodeError *)
| HTTPError                  (* requests.exceptions.HTTPError *)
| ftplib_Error               (* ftplib.Error: error_reply, error_temp,
                                error_perm, error_proto *)
| XMLSchemaValidationError   (* xmlschema.validators.exceptions *)
| ParseError                 (* xml.etree.ElementTree.ParseError *)
| XMLSchemaException         (* xmlschema.exceptions *)
| KeyError                   (* built-in *)
| OSError.                   (* built-in; connection failures *)

Definition exn_class_eqb (a b : exn_class) : bool :=
  match a, b with
  | ValueError, ValueError
  | HTTPError, HTTPError
  | ftplib_Error, ftplib_Error
  | XMLSchemaValidationError, XMLSchemaValidationError
  | ParseError, ParseError
  | XMLSchemaException, XMLSchemaException
  | KeyError, KeyError
  | OSError, OSError => true
  | _, _ => false
  end.

(** An exception object: the named classes it is an instance of, and its
    [str()].  Every exception is an instance of [Exception]. *)
Record exn : Type := mkExn { exn_bases : list exn_class; exn_str : string }.

(** [Exception(message)] *)
Definition Exception (message : string) : exn := mkExn [] message.

(** [isinstance(e, c)], the test an [except c] clause makes. *)
Definition isinstance (e : exn) (c : exn_class) : bool :=
  existsb (exn_class_eqb c) (exn_bases e).

Inductive result (A : Type) : Type :=
| Ok (a : A)
| Raise (e : exn).
Arguments Ok {A} a.
Arguments Raise {A} e.

Inductive colour : Type := Green | Red | Bold.

(** What the program does to the outside world. *)
Inductive event : Type :=
| HttpGet (url : string)                    (* requests.get(url) *)
| FtpOpen (host : string)                   (* ftplib.FTP(host) *)
| FtpLogin                                  (* ftp.login() *)
| FtpRetrbinary (cmd : string)              (* ftp.retrbinary(cmd, callback) *)
| FtpClose                                  (* ftp.close() *)
| Validate (xml schema : string)            (* xmlschema.validate(xml, schema=schema) *)
| Echo (style : option colour) (message : string).
                                            (* click.echo / click.secho *)

(** A computation: its result or the exception it raises, and the events it
    performed, oldest first. *)
Definition M (A : Type) : Type := (result A * list event)%type.

Definition ret {A} (a : A) : M A := (Ok a, []).

Definition raise {A} (e : exn) : M A := (Raise e, []).

Definition emit (ev : event) : M unit := (Ok tt, [ev]).

Definition bind {A B} (m : M A) (f : A -> M B) : M B :=
  match m with
  | (Ok a, l) => let (r, l') := f a in (r, (l ++ l')%list)
  | (Raise e, l) => (Raise e, l)
  end.

(** [try: m except Exception as err: handler(err)]; a handler that does not
    apply re-raises. *)
Definition try_except {A} (m : M A) (handler : exn -> M A) : M A :=
  match m with
  | (Ok a, l) => (Ok a, l)
  | (Raise e, l) => let (r, l') := handler e in (r, (l ++ l')%list)
  end.

(** An oracle's answer, after the event of asking has been logged. *)
Definition call {A} (ev : event) (answer : result A) : M A := (answer, [ev]).

Declare Scope py_scope.
Delimit Scope py_scope with py.
Notation "x <- m ;; k" := (bind m (fun x => k))
  (at level 61, m at next level, right associativity) : py_scope.
Notation "m ;;; k" := (bind m (fun _ => k))
  (at level 61, right associativity) : py_scope.
Local Open Scope py_scope.

(** The line feed, and a line of output. *)
Definition nl : string := String (ascii_of_nat 10) EmptyString.

(* ===================================================================== *)
(** ** The collaborators *)
(* ===================================================================== *)

(** The fields of [urllib.parse.urlparse(url)] the program reads. *)
Record ParseResult : Type :=
  mkParseResult { scheme : string; netloc : string; path : string }.

(** The fields of a [requests.Response] the program reads.  [content_type]
    is [resp.headers["Content-Type"]], absent when the server sent none;
    [resp_url] is the address finally answered, after redirections. *)
Record Response : Type := mkResponse {
  status_code : nat;
  reason : string;
  resp_url : string;
  content_type : option string;
  text : string
}.

(** The world one invocation runs in.  Each field answers as the library
    call named in its comment would. *)
Record Env : Type := mkEnv {
  urlparse : string -> ParseResult;            (* urllib.parse.urlparse *)
  requests_get : string -> result Response;    (* requests.get *)
  FTP : string -> result unit;                 (* ftplib.FTP(host) *)
  FTP_login : string -> result unit;           (* FTP.login, by host *)
  FTP_retrbinary : string -> string -> list (list byte) * option exn;
      (* FTP.retrbinary, by host and command: the blocks handed to the
         callback, and the error that ends the transfer if there is one *)
  is_file : string -> bool;                    (* Path(p).is_file() *)
  absolute : string -> string;                 (* str(Path(p).absolute()) *)
  xmlschema_validate : string -> string -> result unit
                                               (* xmlschema.validate *)
}.

(** [requests.codes.ok] *)
Definition codes_ok : nat := 200.

(** [Response.raise_for_status], as the requests library defines it: an
    [HTTPError] for the statuses 400 to 599, nothing otherwise. *)
Definition http_error_msg (resp : Response) : option string :=
  if ((400 <=? status_code resp) && (status_code resp <? 500))%nat then
    Some (Py.str_of_nat (status_code resp) ++ " Client Error: " ++ reason resp
            ++ " for url: " ++ resp_url resp)
  else if ((500 <=? status_code resp) && (status_code resp <? 600))%nat then
    Some (Py.str_of_nat (status_code resp) ++ " Server Error: " ++ reason resp
            ++ " for url: " ++ resp_url resp)
  else None.

Definition raise_for_status (resp : Response) : M unit :=
  match http_error_msg resp with
  | Some msg => raise (mkExn [HTTPError; OSError] msg)
  | None => ret tt
  end.

(** [resp.headers["Content-Type"]]: a [KeyError] when the header is absent
    (the dictionary of headers looks its keys up in lower case). *)
Definition header_content_type (resp : Response) : M string :=
  match content_type resp with
  | Some v => ret v
  | None => raise (mkExn [KeyError] "'content-type'")
  end.

(** [bytes.decode("UTF-8")]; [UnicodeDecodeError] is a [ValueError]. *)
Definition decode (bs : list byte) : M string :=
  match Py.decode_utf8 bs with
  | Some s => ret s
  | None => raise (mkExn [ValueError] "'utf-8' codec can't decode bytes")
  end.

(* ===================================================================== *)
(** ** The resource resolver *)
(* ===================================================================== *)

Section Program.

Variable env : Env.

(** [ftp.retrbinary(cmd, callback)] with [callback = r.write]: every block
    received is written to [r]. *)
Definition retrbinary (host cmd : string) (r : Py.BytesIO) : M Py.BytesIO :=
  let (blocks, err) := FTP_retrbinary env host cmd in
  let r' := fold_left Py.write blocks r in
  call (FtpRetrbinary cmd)
       (match err with Some e => Raise e | None => Ok r' end).

Definition content_not_xml (resp : Response) : string :=
  "Error: Content of the URL (" ++ resp_url resp ++ ")" ++ nl
    ++ "is not in XML format. " ++ "Make sure the URL is correct." ++ nl.

(** [_process_http_reponse(url, scheme)] *)
Definition _process_http_reponse (url scheme : string) : M string :=
  resp <- call (HttpGet url) (requests_get env url) ;;
  let cnt_type := ["text/plain"; "xml"] in
  let result := "" in
  if negb (Nat.eqb (status_code resp) codes_ok) then
    raise_for_status resp ;;;
    ret result
  else
    wrong_type <-
      (if existsb (String.eqb scheme) ["http"; "https"] then
         ct <- header_content_type resp ;;
         ret (negb (existsb (fun x => Py.contains x ct) cnt_type))
       else ret false) ;;
    if wrong_type : bool then raise (Exception (content_not_xml resp))
    else ret (text resp).

Definition path_does_not_exist (arg_type url : string) : string :=
  "Error: Invalid value for " ++ arg_type ++ nl
    ++ "Path " ++ url ++ " does not exist." ++ nl.

(** The [try] block of [xmlFromURL]. *)
Definition fetch (url scheme : string) : M (string * string) :=
  if scheme =? "file" then raise (mkExn [ValueError] "")
  else if scheme =? "ftp" then
    let host := netloc (urlparse env url) in
    let path := path (urlparse env url) in
    call (FtpOpen host) (FTP env host) ;;;
    call FtpLogin (FTP_login env host) ;;;
    let r := Py.BytesIO_new in
    r <- retrbinary host ("RETR " ++ path) r ;;
    let (byte_str, r) := Py.read r in
    content <- decode byte_str ;;
    (* r.close() releases the buffer; nothing outside sees it *)
    emit FtpClose ;;;
    ret (content, url)
  else
    content <- _process_http_reponse url scheme ;;
    ret (content, url).

(** The [except ValueError] clause: the argument is a local path. *)
Definition local_path (url scheme : string) : string :=
  if scheme =? "file" then Py.replace "file://" "" url else url.

Definition from_file (url scheme arg_type : string) : M (string * string) :=
  let url := local_path url scheme in
  if negb (is_file env url) then
    raise (Exception (path_does_not_exist arg_type url))
  else ret (absolute env url, url).

(** [xmlFromURL(url, arg_type)]: the resolved content and the address it
    was asked from. *)
Definition xmlFromURL (url arg_type : string) : M (string * string) :=
  let scheme := scheme (urlparse env url) in
  try_except (fetch url scheme)
    (fun err =>
       if isinstance err ValueError then from_file url scheme arg_type
       else if isinstance err HTTPError then
         raise (Exception (exn_str err ++ "" ++ url ++ nl
                             ++ "Make sure the URL is correct." ++ nl))
       else if isinstance err ftplib_Error then
         raise (Exception (exn_str err ++ " (" ++ url ++ ")" ++ nl
                             ++ "Make sure the URL is correct." ++ nl))
       else raise err).

(* ===================================================================== *)
(** ** The validation reporter *)
(* ===================================================================== *)

(** [click.format_filename(name, shorten=True)]: the base name. *)
Definition format_filename (name : string) : string := Py.basename name.

Definition echo (message : string) : M unit := emit (Echo None message).

Definition secho (message : string) (c : colour) : M unit :=
  emit (Echo (Some c) message).

(** What the first [try] block of [cli] leaves in the local variables
    [xml_file], [requested_url], [xml_from_url] and [schema_file]. *)
Record resolved : Type := mkResolved {
  xml_file : string;
  requested_url : string;
  xml_from_url : bool;
  schema_file : string
}.

(** The first [try] block of [cli]. *)
Definition resolve (xml_file schema_file : string) : M resolved :=
  let xml_from_url := false in
  r <- xmlFromURL xml_file "XML_FILE" ;;
  let (xml_file, requested_url) := r : string * string in
  let xml_from_url :=
    if negb (Py.startswith "/" xml_file) then true else xml_from_url in
  r <- xmlFromURL schema_file "SCHEMA_FILE" ;;
  let (xsd_resp, _) := r : string * string in
  let schema_file := if Py.truthy xsd_resp then xsd_resp else schema_file in
  ret (mkResolved xml_file requested_url xml_from_url schema_file).

(** The second [try] block of [cli] with its [except] clauses. *)
Definition validate_and_report (v : resolved) (verbose : bool) : M unit :=
  try_except
    (call (Validate (xml_file v) (schema_file v))
          (xmlschema_validate env (xml_file v) (schema_file v)) ;;;
     if xml_from_url v then
       echo ("The XML from the URL:" ++ nl ++ requested_url v) ;;;
       secho ("is valid." ++ nl) Green
     else
       echo ("The XML file: " ++ format_filename (xml_file v)) ;;;
       secho ("is valid." ++ nl) Green)
    (fun err =>
       if isinstance err XMLSchemaValidationError then
         (if xml_from_url v then
            echo ("The XML from the URL:" ++ nl ++ requested_url v) ;;;
            secho ("is invalid." ++ nl) Red
          else
            echo ("The XML file: " ++ format_filename (xml_file v)) ;;;
            secho ("is invalid." ++ nl) Red) ;;;
         if verbose then
           secho "Error:" Bold ;;;
           echo (exn_str err)
         else ret tt
       else if isinstance err ParseError then
         echo ("Faulty XML or XSD file was given." ++ nl) ;;;
         if verbose then echo ("Error: " ++ exn_str err) else ret tt
       else if isinstance err XMLSchemaException then
         if negb verbose then
           echo (nl ++ "Validation ran into an unexpected error."
                    ++ " Run command with --verbose option for more details"
                    ++ nl)
         else echo ("Error: " ++ exn_str err)
       else raise err).

(** [cli(xml_file, schema_file, verbose)].  A failed resolution is echoed
    and ends the command ([return None]). *)
Definition cli (xml_file schema_file : string) (verbose : bool) : M unit :=
  v <- try_except
         (v <- resolve xml_file schema_file ;; ret (Some v))
         (fun error => echo (exn_str error) ;;; ret None) ;;
  match v with
  | None => ret tt
  | Some v => validate_and_report v verbose
  end.

End Program.

(* ===================================================================== *)
(** ** The process *)
(* ===================================================================== *)

(** What the argument-parsing layer ([click.command] with two positional
    arguments and the flag [-v/--verbose]) makes of a command line: a usage
    error, or a call of [cli] with its two positional arguments. *)
Inductive invocation : Type :=
| UsageError (message : string)
| Call (xml_file schema_file : string) (verbose : bool).

(** The text written by the [Echo] events, one line each.  Colours are left
    out: click strips them when the output is not a terminal. *)
Fixpoint stdout (l : list event) : string :=
  match l with
  | [] => ""
  | Echo _ message :: l' => message ++ nl ++ stdout l'
  | _ :: l' => stdout l'
  end.

(** The exit code of the process: 2 for a usage error; 0 when [cli] returns;
    1 when an exception leaves [cli] (the interpreter's traceback). *)
Definition exit_code (env : Env) (inv : invocation) : nat :=
  match inv with
  | UsageError _ => 2
  | Call xml schema verbose =>
      match fst (cli env xml schema verbose) with
      | Ok _ => 0
      | Raise _ => 1
      end
  end.

(** The text the command prints. *)
Definition output (env : Env) (xml schema : string) (verbose : bool) : string :=
  stdout (snd (cli env xml schema verbose)).

(** The calls of the validator among the events. *)
Fixpoint validator_calls (l : list event) : list (string * string) :=
  match l with
  | [] => []
  | Validate x s :: l' => (x, s) :: validator_calls l'
  | _ :: l' => validator_calls l'
  end.

(** How often an event occurs. *)
Definition event_eqb (a b : event) : bool :=
  match a, b with
  | HttpGet u, HttpGet u' => u =? u'
  | FtpOpen h, FtpOpen h' => h =? h'
  | FtpLogin, FtpLogin => true
  | FtpRetrbinary c, FtpRetrbinary c' => c =? c'
  | FtpClose, FtpClose => true
  | Validate x s, Validate x' s' => (x =? x') && (s =? s')
  | _, _ => false
  end.

Definition occurrences (ev : event) (l : list event) : nat :=
  List.length (filter (event_eqb ev) l).

(* ===================================================================== *)
(** ** A sample world *)
(* ===================================================================== *)

(** A concrete [Env] on which the program can be run: a POSIX file system
    with a handful of files, a web server, an FTP server and a validator
    that knows these documents.  The statements below are instantiated on
    it. *)
Module Sample.

(** *** URL parsing

    [urllib.parse.urlparse], for addresses without parameters: the scheme
    is what precedes the first colon when that is a letter followed by
    letters, digits, [+], [-] or [.], in lower case; the network location
    follows [//] up to the next [/], [?] or [#]; the path ends at [?] or
    [#]. *)

Definition between (lo hi : nat) (c : ascii) : bool :=
  (lo <=? nat_of_ascii c)%nat && (nat_of_ascii c <=? hi)%nat.

Definition is_alpha (c : ascii) : bool := between 65 90 c || between 97 122 c.

Definition is_scheme_char (c : ascii) : bool :=
  is_alpha c || between 48 57 c
  || Ascii.eqb c "+" || Ascii.eqb c "-" || Ascii.eqb c ".".

Definition lower (c : ascii) : ascii :=
  if between 65 90 c then ascii_of_nat (nat_of_ascii c + 32) else c.

Fixpoint all_chars (p : ascii -> bool) (s : string) : bool :=
  match s with
  | EmptyString => true
  | String c s' => p c && all_chars p s'
  end.

Fixpoint map_chars (f : ascii -> ascii) (s : string) : string :=
  match s with
  | EmptyString => EmptyString
  | String c s' => String (f c) (map_chars f s')
  end.

(** [s] cut before the first character that satisfies [stop]. *)
Fixpoint cut (stop : ascii -> bool) (s : string) : string * string :=
  match s with
  | EmptyString => (EmptyString, EmptyString)
  | String c s' =>
      if stop c then (EmptyString, s)
      else let (a, b) := cut stop s' in (String c a, b)
  end.

Definition drop (n : nat) (s : string) : string :=
  String.substring n (String.length s - n) s.

Definition split_scheme (url : string) : string * string :=
  let (pre, rest) := cut (Ascii.eqb ":") url in
  match pre, rest with
  | String c _, String _ rest' =>
      if is_alpha c && all_chars is_scheme_char pre
      then (map_chars lower pre, rest')
      else (EmptyString, url)
  | _, _ => (EmptyString, url)
  end.

Definition urlparse (url : string) : ParseResult :=
  let (scheme, rest) := split_scheme url in
  let (netloc, rest) :=
    if String.prefix "//" rest
    then cut (fun c => Ascii.eqb c "/" || Ascii.eqb c "?" || Ascii.eqb c "#")
             (drop 2 rest)
    else (EmptyString, rest) in
  let (path, _) := cut (fun c => Ascii.eqb c "?" || Ascii.eqb c "#") rest in
  mkParseResult scheme netloc path.

(** *** The file system *)

Definition files : list string :=
  ["/data/xml/SAMPLE.xml"; "/data/xml/invalid_SUBMISSION.xml";
   "/data/xml/bad_syntax.xml"; "/data/schemas/SRA.sample.xsd";
   "/srv/file://a.xml"].

Definition is_file (p : string) : bool := existsb (String.eqb p) files.

Definition cwd : string := "/home/curator".

Definition absolute (p : string) : string :=
  if Py.startswith "/" p then p else cwd ++ "/" ++ p.

(** *** The web server *)

Definition MissingSchema (url : string) : exn :=
  mkExn [ValueError; OSError]
    ("Invalid URL '" ++ url ++ "': No scheme supplied.").

Definition InvalidSchema (url : string) : exn :=
  mkExn [ValueError; OSError]
    ("No connection adapters were found for '" ++ url ++ "'").

Definition ConnectionError : exn :=
  mkExn [OSError] "Failed to establish a new connection".

Definition pages : list (string * Response) :=
  [("http://example.com/SAMPLE.xml",
    mkResponse 200 "OK" "http://example.com/SAMPLE.xml"
      (Some "application/xml") "<SAMPLE_SET/>");
   ("http://example.com/error.xml",
    mkResponse 400 "Bad Request" "http://example.com/error.xml"
      (Some "application/xml") "<ErrorDetails></ErrorDetails>");
   ("http://example.com/",
    mkResponse 200 "OK" "http://example.com/"
      (Some "text/html") "<html></html>");
   ("http://example.com/created.xml",
    mkResponse 201 "Created" "http://example.com/created.xml"
      (Some "application/xml") "<SAMPLE_SET/>");
   ("http://example.com/cached.xml",
    mkResponse 304 "Not Modified" "http://example.com/cached.xml"
      (Some "application/xml") "");
   ("http://example.com/where.txt",
    mkResponse 200 "OK" "http://example.com/where.txt"
      (Some "text/plain") "/data/xml/SAMPLE.xml")].

Fixpoint lookup {A} (k : string) (l : list (string * A)) : option A :=
  match l with
  | [] => None
  | (k', v) :: l' => if k =? k' then Some v else lookup k l'
  end.

Definition requests_get (url : string) : result Response :=
  let s := scheme (urlparse url) in
  if s =? "" then Raise (MissingSchema url)
  else if (s =? "http") || (s =? "https") then
    match lookup url pages with
    | Some resp => Ok resp
    | None => Raise ConnectionError
    end
  else Raise (InvalidSchema url).

(** *** The FTP server *)

Definition bytes (s : string) : list byte := list_byte_of_string s.

Definition error_perm (message : string) : exn :=
  mkExn [ftplib_Error] message.

Definition FTP (host : string) : result unit :=
  if host =? "ftp.example.org" then Ok tt
  else Raise (mkExn [OSError] "Name or service not known").

Definition FTP_login (host : string) : result unit := Ok tt.

Definition FTP_retrbinary (host cmd : string)
  : list (list byte) * option exn :=
  if cmd =? "RETR /pub/SRA.sample.xsd"
  then ([bytes "<xs:schema "; bytes "/>"], None)
  else ([], Some (error_perm "550 Failed to open file.")).

(** *** The validator *)

Definition validation_error : exn :=
  mkExn [XMLSchemaValidationError; XMLSchemaException; ValueError]
    "failed validating <Element 'SUBMISSION'> with XsdGroup".

Definition parse_error : exn :=
  mkExn [ParseError]
    "not well-formed (invalid token): line 1, column 2".

Definition resource_error : exn :=
  mkExn [XMLSchemaException; OSError] "cannot access resource".

Definition xmlschema_validate (xml schema : string) : result unit :=
  if (xml =? "/data/xml/SAMPLE.xml") || (xml =? "<SAMPLE_SET/>")
  then Ok tt
  else if xml =? "/data/xml/invalid_SUBMISSION.xml"
  then Raise validation_error
  else if xml =? "/data/xml/bad_syntax.xml" then Raise parse_error
  else Raise resource_error.

Definition env : Env :=
  mkEnv urlparse requests_get FTP FTP_login FTP_retrbinary
        is_file absolute xmlschema_validate.

End Sample.

(** A second world, the first one gone wrong: a web server that sends no
    Content-Type for one page, FTP servers that turn the client away, and a
    validator that loses its connection in the middle of a validation. *)
Module Wild.

Definition pages : list (string * Response) :=
  [("http://example.com/bare.xml",
    mkResponse 200 "OK" "http://example.com/bare.xml" None "<SAMPLE_SET/>")].

Definition requests_get (url : string) : result Response :=
  match Sample.lookup url pages with
  | Some resp => Ok resp
  | None => Sample.requests_get url
  end.

Definition error_temp (message : string) : exn :=
  mkExn [ftplib_Error] message.

Definition FTP (host : string) : result unit :=
  if host =? "ftp.busy.org"
  then Raise (error_temp "421 Too many connections.")
  else Ok tt.

Definition FTP_login (host : string) : result unit :=
  if host =? "ftp.private.org"
  then Raise (Sample.error_perm "530 Login incorrect.")
  else Ok tt.

Definition connection_reset : exn :=
  mkExn [OSError] "[Errno 104] Connection reset by peer".

Definition xmlschema_validate (xml schema : string) : result unit :=
  if xml =? "/data/xml/SAMPLE.xml" then Raise connection_reset
  else Sample.xmlschema_validate xml schema.

Definition env : Env :=
  mkEnv Sample.urlparse requests_get FTP FTP_login Sample.FTP_retrbinary
        Sample.is_file Sample.absolute xmlschema_validate.

End Wild.

(* ===================================================================== *)
(** ** Vocabulary of the statements *)
(* ===================================================================== *)

(** A stream whose position is at the end of its contents: there is nothing
    left to [read]. *)
Definition at_end (r : Py.BytesIO) : Prop :=
  Py.position r = List.length (Py.buffer r).

(** The events of the resolver: calls of the HTTP and FTP clients. *)
Definition network_event (ev : event) : bool :=
  match ev with
  | HttpGet _ | FtpOpen _ | FtpLogin | FtpRetrbinary _ | FtpClose => true
  | Validate _ _ | Echo _ _ => false
  end.

(** The validator raises nothing but what [cli] has an [except] clause
    for: validation errors, parse errors and the other exceptions of the
    validation library. *)
Definition raises_declared (env : Env) : Prop :=
  forall xml schema e,
    xmlschema_validate env xml schema = Raise e ->
    isinstance e XMLSchemaValidationError || isinstance e ParseError
    || isinstance e XMLSchemaException = true.

(** The HTTP client refuses an address without scheme before any network
    traffic, with [MissingSchema] or [InvalidSchema]; both are [ValueError]s.
    This is how the program tells a local path from a URL. *)
Definition refuses_no_scheme (env : Env) : Prop :=
  forall url,
    scheme (urlparse env url) = "" ->
    exists e, requests_get env url = Raise e /\ isinstance e ValueError = true.


(** An argument with no scheme or with the scheme [file]. *)
Definition local_argument (env : Env) (arg : string) : Prop :=
  scheme (urlparse env arg) = "" \/ scheme (urlparse env arg) = "file".

(** The path the resolver looks up for a local argument. *)
Definition path_of (env : Env) (arg : string) : string :=
  local_path arg (scheme (urlparse env arg)).


(** An argument with the scheme [http] or [https]. *)
Definition http_argument (env : Env) (arg : string) : Prop :=
  scheme (urlparse env arg) = "http" \/ scheme (urlparse env arg) = "https".

(** The test [_process_http_reponse] makes on the Content-Type. *)
Definition accepted_type (ct : string) : bool :=
  existsb (fun x => Py.contains x ct) ["text/plain"; "xml"].

(** The resolver failed with the message of an HTTP error: the text of the
    error, the address and the advice. *)
Definition http_failure (url : string) (r : result (string * string)) : Prop :=
  exists m,
    r = Raise (Exception (m ++ url ++ nl ++ "Make sure the URL is correct." ++ nl)).

(** The statuses 200 to 299. *)
Definition is_2xx (status : nat) : bool :=
  ((200 <=? status) && (status <? 300))%nat.

(** The behaviour on HTTP addresses in the words of the specification: an
    HTTP error exactly for the statuses outside 2xx; within 2xx a content
    error unless the Content-Type is [text/plain] or contains [xml], and the
    body otherwise.  The Content-Type is taken to be [text/plain] also when
    it carries parameters ([text/plain; charset=utf-8]), as the code does. *)
Definition http_resolution_as_specified (env : Env) (url label : string) : Prop :=
  forall resp ct,
    requests_get env url = Ok resp ->
    content_type resp = Some ct ->
    let r := fst (xmlFromURL env url label) in
    (http_failure url r <-> is_2xx (status_code resp) = false)
    /\ (is_2xx (status_code resp) = true ->
        accepted_type ct = false ->
        r = Raise (Exception (content_not_xml resp)))
    /\ (is_2xx (status_code resp) = true ->
        accepted_type ct = true ->
        r = Ok (text resp, url)).

(** The variables of [cli] after both arguments were resolved to
    [(content, asked)] and [(xsd_resp, _)]. *)
Definition resolved_as (content asked xsd_resp schema_arg : string) : resolved :=
  mkResolved content asked (negb (Py.startswith "/" content))
             (if Py.truthy xsd_resp then xsd_resp else schema_arg).

(** The first line of the report. *)
Definition report_head (content asked : string) : string :=
  if Py.startswith "/" content
  then "The XML file: " ++ Py.basename content
  else "The XML from the URL:" ++ nl ++ asked.

(** A line printed on the terminal. *)
Definition is_echo (ev : event) : bool :=
  match ev with
  | Echo _ _ => true
  | _ => false
  end.

(** The failure the resolver raises for an FTP error. *)
Definition ftp_failure (url : string) (e : exn) : exn :=
  Exception (exn_str e ++ " (" ++ url ++ ")" ++ nl
               ++ "Make sure the URL is correct." ++ nl).

(** The message printed when the validator raises an exception of its
    library that is neither a validation error nor a parse error. *)
Definition unexpected_error : string :=
  nl ++ "Validation ran into an unexpected error."
     ++ " Run command with --verbose option for more details" ++ nl.

(* ===================================================================== *)
(** ** Properties of the built-ins *)
(* ===================================================================== *)

Lemma new_at_end : at_end Py.BytesIO_new.
Proof. reflexivity. Qed.

Lemma write_at_end (r : Py.BytesIO) (data : list byte) :
  at_end r -> at_end (Py.write r data).
Proof.
  unfold at_end, Py.write. intros Hpos.
  destruct data as [|b data]; [exact Hpos|].
  cbn [Py.position Py.buffer].
  rewrite !length_app, length_firstn, length_skipn, repeat_length.
  rewrite Hpos. cbn [List.length]. lia.
Qed.

Lemma writes_at_end (blocks : list (list byte)) (r : Py.BytesIO) :
  at_end r -> at_end (fold_left Py.write blocks r).
Proof.
  revert r. induction blocks as [|b blocks IH]; intros r Hr; cbn.
  - exact Hr.
  - apply IH, write_at_end, Hr.
Qed.

(** Writing at the end appends: nothing that was received is lost. *)
Lemma write_appends (r : Py.BytesIO) (data : list byte) :
  at_end r -> Py.buffer (Py.write r data) = (Py.buffer r ++ data)%list.
Proof.
  unfold at_end, Py.write. intros Hpos.
  destruct data as [|b data]; [now rewrite app_nil_r|].
  cbn [Py.position Py.buffer]. rewrite Hpos.
  rewrite firstn_all, Nat.sub_diag, skipn_all2 by lia.
  cbn [repeat]. now rewrite app_nil_r.
Qed.

Lemma writes_append (blocks : list (list byte)) (r : Py.BytesIO) :
  at_end r ->
  Py.getvalue (fold_left Py.write blocks r)
  = (Py.buffer r ++ List.concat blocks)%list.
Proof.
  revert r. induction blocks as [|b blocks IH]; intros r Hr; cbn.
  - now rewrite app_nil_r.
  - rewrite IH by now apply write_at_end.
    rewrite write_appends by assumption. now rewrite app_assoc.
Qed.

(** [read] at the end returns no byte. *)
Lemma read_at_end (r : Py.BytesIO) : at_end r -> fst (Py.read r) = [].
Proof.
  unfold at_end, Py.read. intros Hpos. cbn [fst].
  rewrite Hpos. apply skipn_all.
Qed.

(** So a [read] that follows writes to a fresh stream, as in [fetch], never
    sees what was written. *)
Lemma read_after_writes (blocks : list (list byte)) :
  fst (Py.read (fold_left Py.write blocks Py.BytesIO_new)) = [].
Proof. apply read_at_end, writes_at_end, new_at_end. Qed.


Lemma truthy_eqb (s : string) : Py.truthy s = negb (s =? "").
Proof. destruct s; reflexivity. Qed.

Lemma length_append (a b : string) :
  String.length (a ++ b) = String.length a + String.length b.
Proof. induction a as [|c a IH]; cbn; [reflexivity | now rewrite IH]. Qed.

Lemma append_assoc (a b c : string) : (a ++ b) ++ c = a ++ b ++ c.
Proof. induction a as [|x a IH]; cbn; [reflexivity | now rewrite IH]. Qed.

Lemma append_nil_r (a : string) : a ++ "" = a.
Proof. induction a as [|x a IH]; cbn; [reflexivity | now rewrite IH]. Qed.

(** Two texts with different endings of the same length differ. *)
Lemma append_inj_suffix (a b s t : string) :
  String.length s = String.length t -> a ++ s = b ++ t -> s = t.
Proof.
  revert b. induction a as [|c a IH]; intros b Hlen Heq.
  - destruct b as [|d b]; [exact Heq|].
    exfalso. apply (f_equal String.length) in Heq.
    cbn in Heq. rewrite length_append in Heq. lia.
  - destruct b as [|d b].
    + exfalso. apply (f_equal String.length) in Heq.
      cbn in Heq. rewrite length_append in Heq. lia.
    + cbn in Heq. injection Heq as _ Heq. now apply (IH b).
Qed.

(* ===================================================================== *)
(** ** Properties of the monad *)
(* ===================================================================== *)

Lemma stdout_app (l l' : list event) :
  stdout (l ++ l') = stdout l ++ stdout l'.
Proof.
  induction l as [|ev l IH]; cbn; [reflexivity|].
  destruct ev; cbn; try exact IH.
  rewrite IH. now rewrite !append_assoc.
Qed.

Lemma validator_calls_app (l l' : list event) :
  validator_calls (l ++ l') = (validator_calls l ++ validator_calls l')%list.
Proof.
  induction l as [|ev l IH]; cbn; [reflexivity|].
  destruct ev; cbn; now rewrite ?IH.
Qed.

Lemma network_stdout (l : list event) :
  forallb network_event l = true -> stdout l = "".
Proof.
  induction l as [|ev l IH]; cbn; [reflexivity|].
  destruct ev; cbn; intros H; try discriminate; now apply IH.
Qed.

Lemma network_validator_calls (l : list event) :
  forallb network_event l = true -> validator_calls l = [].
Proof.
  induction l as [|ev l IH]; cbn; [reflexivity|].
  destruct ev; cbn; intros H; try discriminate; now apply IH.
Qed.

(* ===================================================================== *)
(** ** Properties of the resolver *)
(* ===================================================================== *)

Lemma bind_network {A B} (m : M A) (f : A -> M B) :
  forallb network_event (snd m) = true ->
  (forall a, forallb network_event (snd (f a)) = true) ->
  forallb network_event (snd (bind m f)) = true.
Proof.
  destruct m as [[a|e] l]; cbn; intros Hm Hf; [|exact Hm].
  specialize (Hf a). destruct (f a) as [r l']. cbn in *.
  rewrite forallb_app, Hm, Hf. reflexivity.
Qed.

Lemma try_network {A} (m : M A) (h : exn -> M A) :
  forallb network_event (snd m) = true ->
  (forall e, forallb network_event (snd (h e)) = true) ->
  forallb network_event (snd (try_except m h)) = true.
Proof.
  destruct m as [[a|e] l]; cbn; intros Hm Hh; [exact Hm|].
  specialize (Hh e). destruct (h e) as [r l']. cbn in *.
  rewrite forallb_app, Hm, Hh. reflexivity.
Qed.

(** Walks through a computation, one statement at a time. *)
Ltac network :=
  repeat first
    [ reflexivity
    | apply try_network
    | apply bind_network
    | intro
    | match goal with
      | |- context [match ?x with _ => _ end] => destruct x
      end ].

Section Resolver.

Variable env : Env.

(** The resolver talks to the network and to nothing else. *)
Lemma xmlFromURL_network (url label : string) :
  forallb network_event (snd (xmlFromURL env url label)) = true.
Proof.
  unfold xmlFromURL, fetch, _process_http_reponse, retrbinary, from_file,
    raise_for_status, header_content_type, decode.
  network.
Qed.

(** The [except ValueError] clause performs no event and decides on
    [is_file] alone. *)
Lemma from_file_eq (url s label : string) :
  from_file env url s label
  = (if is_file env (local_path url s)
     then Ok (absolute env (local_path url s), local_path url s)
     else Raise (Exception (path_does_not_exist label (local_path url s))),
     []).
Proof. unfold from_file. now destruct (is_file env (local_path url s)). Qed.

(** An argument with the scheme [file] goes to the [except ValueError]
    clause at once. *)
Lemma xmlFromURL_file (url label : string) :
  scheme (urlparse env url) = "file" ->
  xmlFromURL env url label = from_file env url "file" label.
Proof.
  intros Hs. unfold xmlFromURL, fetch. rewrite Hs. cbn.
  rewrite from_file_eq. reflexivity.
Qed.

(** An argument the HTTP client refuses with a [ValueError] goes there
    after the refused call. *)
Lemma xmlFromURL_refused (url label : string) (e : exn) :
  (scheme (urlparse env url) =? "file") = false ->
  (scheme (urlparse env url) =? "ftp") = false ->
  requests_get env url = Raise e ->
  isinstance e ValueError = true ->
  xmlFromURL env url label
  = (fst (from_file env url (scheme (urlparse env url)) label),
     [HttpGet url]).
Proof.
  intros Hfile Hftp Hget He.
  unfold xmlFromURL, fetch, _process_http_reponse, call.
  rewrite Hfile, Hftp, Hget. cbn. rewrite He, from_file_eq. reflexivity.
Qed.

(** What the resolver returns for a local argument. *)
Lemma xmlFromURL_local (arg label : string) :
  refuses_no_scheme env ->
  local_argument env arg ->
  fst (xmlFromURL env arg label)
  = if is_file env (path_of env arg)
    then Ok (absolute env (path_of env arg), path_of env arg)
    else Raise (Exception (path_does_not_exist label (path_of env arg))).
Proof.
  intros Hreq [Hs|Hs]; unfold path_of.
  - destruct (Hreq arg Hs) as (e & Hget & He).
    rewrite (@xmlFromURL_refused arg label e); try assumption;
      try (rewrite Hs; reflexivity).
    now rewrite from_file_eq.
  - rewrite xmlFromURL_file by assumption.
    rewrite Hs, from_file_eq. reflexivity.
Qed.

(** A successful FTP retrieval: the four calls in order, and the empty
    text whatever the server sent. *)
Lemma xmlFromURL_ftp_success (url label : string) (blocks : list (list byte)) :
  let host := netloc (urlparse env url) in
  let cmd := "RETR " ++ path (urlparse env url) in
  scheme (urlparse env url) = "ftp" ->
  FTP env host = Ok tt ->
  FTP_login env host = Ok tt ->
  FTP_retrbinary env host cmd = (blocks, None) ->
  xmlFromURL env url label
  = (Ok ("", url), [FtpOpen host; FtpLogin; FtpRetrbinary cmd; FtpClose]).
Proof.
  intros host cmd Hs Hopen Hlogin Hretr.
  unfold xmlFromURL, fetch, retrbinary, call. rewrite Hs.
  cbn -[String.append]. fold host. fold cmd.
  rewrite Hopen, Hlogin, Hretr. cbn -[String.append].
  pose proof (read_after_writes blocks) as Hread.
  unfold Py.read in Hread. cbn [fst] in Hread. rewrite Hread. reflexivity.
Qed.

(** A failed FTP retrieval: the connection was opened and logged in to,
    the retrieval was asked for, and nothing more happened. *)
Lemma xmlFromURL_ftp_failure (url label : string)
      (blocks : list (list byte)) (e : exn) :
  let host := netloc (urlparse env url) in
  let cmd := "RETR " ++ path (urlparse env url) in
  scheme (urlparse env url) = "ftp" ->
  FTP env host = Ok tt ->
  FTP_login env host = Ok tt ->
  FTP_retrbinary env host cmd = (blocks, Some e) ->
  snd (xmlFromURL env url label)
  = [FtpOpen host; FtpLogin; FtpRetrbinary cmd].
Proof.
  intros host cmd Hs Hopen Hlogin Hretr.
  unfold xmlFromURL, fetch, retrbinary, call. rewrite Hs.
  cbn -[String.append]. fold host. fold cmd.
  rewrite Hopen, Hlogin, Hretr. cbn -[String.append].
  rewrite from_file_eq.
  destruct (isinstance e ValueError); [reflexivity|].
  destruct (isinstance e HTTPError); [reflexivity|].
  destruct (isinstance e ftplib_Error); reflexivity.
Qed.

(** What the resolver does with the answer to a GET. *)
Lemma xmlFromURL_http (url label : string) (resp : Response) :
  http_argument env url ->
  requests_get env url = Ok resp ->
  xmlFromURL env url label
  = (if negb (Nat.eqb (status_code resp) codes_ok) then
       match http_error_msg resp with
       | Some m =>
           Raise (Exception (m ++ url ++ nl
                               ++ "Make sure the URL is correct." ++ nl))
       | None => Ok ("", url)
       end
     else
       match content_type resp with
       | None => Raise (mkExn [KeyError] "'content-type'")
       | Some ct =>
           if accepted_type ct then Ok (text resp, url)
           else Raise (Exception (content_not_xml resp))
       end,
     [HttpGet url]).
Proof.
  intros Hs Hget.
  assert (Hscheme : (scheme (urlparse env url) =? "file") = false
                    /\ (scheme (urlparse env url) =? "ftp") = false
                    /\ existsb (String.eqb (scheme (urlparse env url)))
                         ["http"; "https"] = true)
    by (destruct Hs as [-> | ->]; repeat split; reflexivity).
  destruct Hscheme as (Hfile & Hftp & Hin).
  unfold xmlFromURL, fetch, _process_http_reponse, call,
    raise_for_status, header_content_type.
  rewrite Hfile, Hftp, Hget. cbn -[existsb codes_ok].
  destruct (negb (Nat.eqb (status_code resp) codes_ok)).
  - destruct (http_error_msg resp); reflexivity.
  - rewrite Hin. destruct (content_type resp) as [ct|]; [|reflexivity].
    cbn -[existsb]. fold (accepted_type ct).
    destruct (accepted_type ct); reflexivity.
Qed.

End Resolver.

(* ===================================================================== *)
(** ** Properties of the reporter *)
(* ===================================================================== *)

Section Reporter.

Variable env : Env.

(** Once both arguments are resolved, [cli] is the second [try] block. *)
Lemma cli_resolved (xml xsd : string) (verbose : bool)
      (c u c2 u2 : string) (l1 l2 : list event) :
  xmlFromURL env xml "XML_FILE" = (Ok (c, u), l1) ->
  xmlFromURL env xsd "SCHEMA_FILE" = (Ok (c2, u2), l2) ->
  cli env xml xsd verbose
  = (fst (validate_and_report env (resolved_as c u c2 xsd) verbose),
     (l1 ++ l2
        ++ snd (validate_and_report env (resolved_as c u c2 xsd) verbose))%list).
Proof.
  intros H1 H2. unfold cli, resolve. rewrite H1. cbn. rewrite H2. cbn.
  replace (if negb (Py.startswith "/" c) then true else false)
    with (negb (Py.startswith "/" c))
    by now destruct (Py.startswith "/" c).
  fold (resolved_as c u c2 xsd).
  destruct (validate_and_report env (resolved_as c u c2 xsd) verbose)
    as [r l3].
  cbn. now rewrite !app_nil_r, <- app_assoc.
Qed.

(** The resolver's events add nothing to the text printed and to the
    calls of the validator. *)
Lemma output_resolved (xml xsd : string) (verbose : bool) (c u c2 u2 : string) :
  fst (xmlFromURL env xml "XML_FILE") = Ok (c, u) ->
  fst (xmlFromURL env xsd "SCHEMA_FILE") = Ok (c2, u2) ->
  let report := validate_and_report env (resolved_as c u c2 xsd) verbose in
  fst (cli env xml xsd verbose) = fst report
  /\ output env xml xsd verbose = stdout (snd report)
  /\ validator_calls (snd (cli env xml xsd verbose))
     = validator_calls (snd report).
Proof.
  intros H1 H2 report.
  pose proof (xmlFromURL_network env xml "XML_FILE") as N1.
  pose proof (xmlFromURL_network env xsd "SCHEMA_FILE") as N2.
  destruct (xmlFromURL env xml "XML_FILE") as [r1 l1] eqn:E1.
  destruct (xmlFromURL env xsd "SCHEMA_FILE") as [r2 l2] eqn:E2.
  cbn in H1, H2, N1, N2. subst r1 r2.
  unfold output.
  rewrite (@cli_resolved xml xsd verbose c u c2 u2 l1 l2 E1 E2).
  fold report. cbn [fst snd].
  rewrite !stdout_app, !validator_calls_app.
  rewrite (network_stdout _ N1), (network_stdout _ N2).
  rewrite (network_validator_calls _ N1), (network_validator_calls _ N2).
  repeat split.
Qed.

(** The validator accepts: the report and the verdict [valid]. *)
Lemma report_valid (c u c2 xsd : string) (verbose : bool) :
  let v := resolved_as c u c2 xsd in
  xmlschema_validate env (xml_file v) (schema_file v) = Ok tt ->
  validate_and_report env v verbose
  = (Ok tt,
     [Validate (xml_file v) (schema_file v);
      Echo None (report_head c u);
      Echo (Some Green) ("is valid." ++ nl)]).
Proof.
  intros v Hv. unfold validate_and_report, call. rewrite Hv.
  unfold v, resolved_as, report_head, format_filename. cbn.
  destruct (Py.startswith "/" c); reflexivity.
Qed.

(** The validator raises a validation error: the report, the verdict
    [invalid] and, when asked for, the detail. *)
Lemma report_invalid (c u c2 xsd : string) (verbose : bool) (e : exn) :
  let v := resolved_as c u c2 xsd in
  xmlschema_validate env (xml_file v) (schema_file v) = Raise e ->
  isinstance e XMLSchemaValidationError = true ->
  validate_and_report env v verbose
  = (Ok tt,
     ([Validate (xml_file v) (schema_file v);
       Echo None (report_head c u);
       Echo (Some Red) ("is invalid." ++ nl)]
        ++ if verbose
           then [Echo (Some Bold) "Error:"; Echo None (exn_str e)]
           else [])%list).
Proof.
  intros v Hv He. unfold validate_and_report, call. rewrite Hv.
  unfold v, resolved_as, report_head, format_filename. cbn. rewrite He.
  destruct (Py.startswith "/" c); destruct verbose; reflexivity.
Qed.

(** The validator raises a parse error: the fixed message and, when asked
    for, the text of the error. *)
Lemma report_faulty (v : resolved) (verbose : bool) (e : exn) :
  xmlschema_validate env (xml_file v) (schema_file v) = Raise e ->
  isinstance e XMLSchemaValidationError = false ->
  isinstance e ParseError = true ->
  validate_and_report env v verbose
  = (Ok tt,
     ([Validate (xml_file v) (schema_file v);
       Echo None ("Faulty XML or XSD file was given." ++ nl)]
        ++ if verbose then [Echo None ("Error: " ++ exn_str e)] else [])%list).
Proof.
  intros Hv Hne He. unfold validate_and_report, call. rewrite Hv.
  cbn. rewrite Hne, He. destruct verbose; reflexivity.
Qed.


(** An exception no clause of the second [try] block names leaves [cli]. *)
Lemma validate_and_report_propagates (v : resolved) (verbose : bool) (e : exn) :
  xmlschema_validate env (xml_file v) (schema_file v) = Raise e ->
  isinstance e XMLSchemaValidationError = false ->
  isinstance e ParseError = false ->
  isinstance e XMLSchemaException = false ->
  validate_and_report env v verbose
  = (Raise e, [Validate (xml_file v) (schema_file v)]).
Proof.
  intros Hv H1 H2 H3. unfold validate_and_report, call. rewrite Hv.
  cbn. rewrite H1, H2, H3. reflexivity.
Qed.


(** The second [try] block calls the validator once, on what the first
    one left in [xml_file] and [schema_file]. *)
Lemma validate_and_report_calls (v : resolved) (verbose : bool) :
  validator_calls (snd (validate_and_report env v verbose))
  = [(xml_file v, schema_file v)].
Proof.
  unfold validate_and_report, call.
  destruct (xmlschema_validate env (xml_file v) (schema_file v)) as [[]|e].
  - cbn. destruct (xml_from_url v); reflexivity.
  - cbn.
    destruct (isinstance e XMLSchemaValidationError);
      [destruct (xml_from_url v); destruct verbose; reflexivity|].
    destruct (isinstance e ParseError); [destruct verbose; reflexivity|].
    destruct (isinstance e XMLSchemaException); [|reflexivity].
    destruct verbose; reflexivity.
Qed.

End Reporter.

(* ===================================================================== *)
(** ** The sample world is a world of the expected kind *)
(* ===================================================================== *)

Lemma sample_raises_declared : raises_declared Sample.env.
Proof.
  intros xml schema e. cbn. unfold Sample.xmlschema_validate.
  destruct ((xml =? "/data/xml/SAMPLE.xml") || (xml =? "<SAMPLE_SET/>"));
    [discriminate|].
  destruct (xml =? "/data/xml/invalid_SUBMISSION.xml");
    [intros [= <-]; reflexivity|].
  destruct (xml =? "/data/xml/bad_syntax.xml"); intros [= <-]; reflexivity.
Qed.



(* ===================================================================== *)
(** ** Exit code *)
(* ===================================================================== *)



(** Outside [raises_declared] the second [try] block has no clause: the
    exception leaves [cli] and the exit code is 1. *)
Lemma exit_code_uncaught (env : Env) (xml xsd : string) (verbose : bool)
      (c u c2 u2 : string) (e : exn) :
  fst (xmlFromURL env xml "XML_FILE") = Ok (c, u) ->
  fst (xmlFromURL env xsd "SCHEMA_FILE") = Ok (c2, u2) ->
  xmlschema_validate env c (if Py.truthy c2 then c2 else xsd) = Raise e ->
  isinstance e XMLSchemaValidationError = false ->
  isinstance e ParseError = false ->
  isinstance e XMLSchemaException = false ->
  exit_code env (Call xml xsd verbose) = 1.
Proof.
  intros H1 H2 Hv Ha Hb Hc. unfold exit_code.
  destruct (output_resolved env xml xsd verbose _ _ _ _ H1 H2) as (Hfst & _ & _).
  rewrite Hfst.
  rewrite (validate_and_report_propagates env _ verbose e); auto.
Qed.

(* ===================================================================== *)
(** ** Reports *)
(* ===================================================================== *)




(* ===================================================================== *)
(** ** HTTP addresses *)
(* ===================================================================== *)

(** [raise_for_status] raises for the statuses 400 to 599 and for no
    other. *)
Lemma http_error_msg_range (resp : Response) :
  (exists m, http_error_msg resp = Some m)
  <-> (400 <= status_code resp < 600)%nat.
Proof.
  unfold http_error_msg.
  destruct (Nat.leb_spec 400 (status_code resp));
    destruct (Nat.ltb_spec (status_code resp) 500);
    destruct (Nat.leb_spec 500 (status_code resp));
    destruct (Nat.ltb_spec (status_code resp) 600); cbn;
    split; try lia; try (intros _; eexists; reflexivity);
    intros [m Hm]; discriminate.
Qed.

(** The message about the content is not the message of an HTTP error: the
    advice follows a space in the one and a line feed in the other. *)
Lemma content_error_not_http_failure (url : string) (resp : Response) :
  ~ http_failure url (Raise (Exception (content_not_xml resp))).
Proof.
  intros [m Hm]. injection Hm as Hm. unfold content_not_xml in Hm.
  assert (Hsuffix : " Make sure the URL is correct." ++ nl
                    = nl ++ "Make sure the URL is correct." ++ nl).
  { apply (append_inj_suffix
             ("Error: Content of the URL (" ++ resp_url resp ++ ")" ++ nl
                ++ "is not in XML format.")
             (m ++ url)); [reflexivity|].
    rewrite !append_assoc. exact Hm. }
  discriminate Hsuffix.
Qed.

(** C3, as the code has it.  For every http or https argument the resolver
    issues one GET; it fails with the message of an HTTP error if and only
    if the status of the response is between 400 and 599; for the status
    200 it fails with the error about the content when the Content-Type
    contains neither [text/plain] nor [xml] and returns the text of the
    body when it contains one of them. *)
Theorem http_resolution (env : Env) (url label : string) (resp : Response) :
  http_argument env url ->
  requests_get env url = Ok resp ->
  let r := fst (xmlFromURL env url label) in
  snd (xmlFromURL env url label) = [HttpGet url]
  /\ (http_failure url r <-> (400 <= status_code resp < 600)%nat)
  /\ (forall ct,
         status_code resp = 200 -> content_type resp = Some ct ->
         accepted_type ct = false ->
         r = Raise (Exception (content_not_xml resp)))
  /\ (forall ct,
         status_code resp = 200 -> content_type resp = Some ct ->
         accepted_type ct = true ->
         r = Ok (text resp, url)).
Proof.
  intros Hhttp Hget r. subst r.
  rewrite (xmlFromURL_http env url label resp Hhttp Hget). cbn [fst snd].
  split; [reflexivity|]. split; [|split].
  - rewrite <- http_error_msg_range. unfold codes_ok.
    destruct (Nat.eqb_spec (status_code resp) 200) as [H200|Hnot]; cbn [negb].
    + assert (Hnone : http_error_msg resp = None)
        by (unfold http_error_msg; rewrite H200; reflexivity).
      rewrite Hnone. split; [|intros [m Hm]; discriminate].
      intros Hfail. exfalso.
      destruct (content_type resp) as [ct|].
      * destruct (accepted_type ct).
        -- destruct Hfail as [m Hm]. discriminate.
        -- exact (content_error_not_http_failure url resp Hfail).
      * destruct Hfail as [m Hm]. discriminate.
    + destruct (http_error_msg resp) as [m|].
      * split; [intros _; now exists m | intros _; now exists m].
      * split; [intros [m Hm]; discriminate | intros [m Hm]; discriminate].
  - intros ct H200 Hct Hacc. rewrite H200, Hct, Hacc. reflexivity.
  - intros ct H200 Hct Hacc. rewrite H200, Hct, Hacc. reflexivity.
Qed.

Lemma http_resolution_witness :
  http_argument Sample.env "http://example.com/error.xml"
  /\ http_failure "http://example.com/error.xml"
       (fst (xmlFromURL Sample.env "http://example.com/error.xml" "XML_FILE"))
  /\ fst (xmlFromURL Sample.env "http://example.com/SAMPLE.xml" "XML_FILE")
     = Ok ("<SAMPLE_SET/>", "http://example.com/SAMPLE.xml")
  /\ fst (xmlFromURL Sample.env "http://example.com/" "XML_FILE")
     = Raise (Exception
                ("Error: Content of the URL (http://example.com/)" ++ nl
                   ++ "is not in XML format. Make sure the URL is correct."
                   ++ nl)).
Proof.
  assert (Herr : http_argument Sample.env "http://example.com/error.xml")
    by (left; reflexivity).
  assert (Hxml : http_argument Sample.env "http://example.com/SAMPLE.xml")
    by (left; reflexivity).
  assert (Hhtml : http_argument Sample.env "http://example.com/")
    by (left; reflexivity).
  split; [exact Herr|]. split; [|split].
  - apply (proj1 (proj2 (http_resolution Sample.env _ "XML_FILE" _
                           Herr eq_refl))).
    cbn. lia.
  - apply (proj2 (proj2 (proj2 (http_resolution Sample.env _ "XML_FILE" _
                                  Hxml eq_refl)))
             "application/xml"); reflexivity.
  - apply (proj1 (proj2 (proj2 (http_resolution Sample.env _ "XML_FILE" _
                                  Hhtml eq_refl)))
             "text/html"); reflexivity.
Defined.

(** C3, as the specification has it, fails twice.  The status 201 is
    within 2xx and the Content-Type is XML, yet the resolver returns the
    empty text and not the body; the status 304 is outside 2xx, yet the
    resolver does not fail. *)
Lemma http_resolution_not_as_specified :
  ~ http_resolution_as_specified Sample.env
      "http://example.com/created.xml" "XML_FILE"
  /\ ~ http_resolution_as_specified Sample.env
        "http://example.com/cached.xml" "XML_FILE".
Proof.
  split; intros Hspec.
  - destruct (Hspec _ "application/xml" eq_refl eq_refl) as (_ & _ & Hbody).
    specialize (Hbody eq_refl eq_refl). vm_compute in Hbody. discriminate.
  - destruct (Hspec _ "application/xml" eq_refl eq_refl) as ([_ Hfail] & _).
    destruct (Hfail eq_refl) as [m Hm]. vm_compute in Hm. discriminate.
Qed.

(* ===================================================================== *)
(** ** FTP addresses *)
(* ===================================================================== *)

(** C4.  The content the resolver returns for an ftp argument should be the
    bytes retrieved, decoded as UTF-8.  It is not: the server sends the
    thirteen bytes of a schema, their UTF-8 decoding is that schema, and
    the resolver returns the empty text.  [r.read()] follows the writes of
    [retrbinary] without a rewind and starts where they ended
    ([read_after_writes]; [xmlFromURL_ftp_success] has it for every world
    and every transfer). *)
Theorem ftp_content_lost :
  let url := "ftp://ftp.example.org/pub/SRA.sample.xsd" in
  let blocks :=
    fst (FTP_retrbinary Sample.env "ftp.example.org"
           "RETR /pub/SRA.sample.xsd") in
  Py.decode_utf8 (List.concat blocks) = Some "<xs:schema />"
  /\ Py.decode_utf8
       (Py.getvalue (fold_left Py.write blocks Py.BytesIO_new))
     = Some "<xs:schema />"
  /\ fst (xmlFromURL Sample.env url "SCHEMA_FILE") = Ok ("", url).
Proof.
  intros url blocks. split; [reflexivity|]. split; [reflexivity|].
  unfold url.
  rewrite (xmlFromURL_ftp_success Sample.env _ "SCHEMA_FILE"
             [Sample.bytes "<xs:schema "; Sample.bytes "/>"]);
    reflexivity.
Qed.

(** C5.  Every FTP connection the resolver opens should be closed before it
    returns or raises.  When the retrieval raises an FTP error it is not:
    the resolver opens the connection, logs in, asks for the file and
    raises, and [ftp.close()] is never called.  (When the retrieval
    succeeds, the four calls are made once each and in order:
    [xmlFromURL_ftp_success].) *)
Theorem ftp_error_leaves_connection_open :
  let url := "ftp://ftp.example.org/pub/missing.xsd" in
  let run := xmlFromURL Sample.env url "SCHEMA_FILE" in
  fst run
  = Raise (Exception ("550 Failed to open file. (" ++ url ++ ")" ++ nl
                        ++ "Make sure the URL is correct." ++ nl))
  /\ snd run
     = [FtpOpen "ftp.example.org"; FtpLogin;
        FtpRetrbinary "RETR /pub/missing.xsd"]
  /\ occurrences (FtpOpen "ftp.example.org") (snd run) = 1
  /\ occurrences FtpClose (snd run) = 0.
Proof. repeat split. Qed.

(* ===================================================================== *)
(** ** Local paths *)
(* ===================================================================== *)

(** When [file://] occurs at the head of the argument and nowhere else,
    removing every occurrence is stripping the prefix. *)
Lemma replace_absent (s : string) :
  Py.contains "file://" s = false -> Py.replace_from "file://" "" 0 s = s.
Proof.
  induction s as [|c s IH]; [reflexivity|].
  intros Hno. cbn [Py.contains] in Hno.
  apply Bool.orb_false_iff in Hno. destruct Hno as [Hp Hrest].
  cbn [Py.replace_from]. rewrite Hp. now rewrite (IH Hrest).
Qed.

Lemma replace_strips_prefix (p : string) :
  Py.contains "file://" p = false ->
  Py.replace "file://" "" ("file://" ++ p) = p.
Proof.
  intros Hno. cbn.
  replace (String.prefix "" p) with true by now destruct p.
  now apply replace_absent.
Qed.

(** C6.  For an argument with the scheme [file] the resolver should strip
    the leading [file://] and take what remains as the path.  It removes
    every occurrence of [file://] instead: the argument names the existing
    file [/srv/file://a.xml], and the resolver looks for [/srv/a.xml] and
    reports that it does not exist. *)
Theorem file_prefix_removed_everywhere :
  let arg := "file:///srv/file://a.xml" in
  scheme (urlparse Sample.env arg) = "file"
  /\ is_file Sample.env "/srv/file://a.xml" = true
  /\ path_of Sample.env arg = "/srv/a.xml"
  /\ xmlFromURL Sample.env arg "XML_FILE"
     = (Raise (Exception ("Error: Invalid value for XML_FILE" ++ nl
                            ++ "Path /srv/a.xml does not exist." ++ nl)),
        []).
Proof. repeat split. Qed.

(** Apart from that, the resolver does on local arguments what C6 says: it
    fails with the message about the path exactly when the path is no file,
    and returns the absolute path otherwise. *)
Lemma local_resolution (env : Env) (arg label : string) :
  refuses_no_scheme env ->
  local_argument env arg ->
  (fst (xmlFromURL env arg label)
   = Raise (Exception ("Error: Invalid value for " ++ label ++ nl
                         ++ "Path " ++ path_of env arg ++ " does not exist."
                         ++ nl))
   <-> is_file env (path_of env arg) = false)
  /\ (is_file env (path_of env arg) = true ->
      fst (xmlFromURL env arg label)
      = Ok (absolute env (path_of env arg), path_of env arg)).
Proof.
  intros Hreq Hlocal. rewrite (xmlFromURL_local env arg label Hreq Hlocal).
  destruct (is_file env (path_of env arg)); split;
    try split; try reflexivity; try discriminate.
Qed.

(* ===================================================================== *)
(** ** Reports of failures *)
(* ===================================================================== *)



(** C8.  When the document or the schema is malformed (the validator raises
    a parse error), the output without the verbose flag is exactly [Faulty
    XML or XSD file was given.] and an empty line; with the flag the text
    of the parse error follows that message, on a line that starts with
    [Error: ]. *)
Theorem faulty_file_report (env : Env) (xml xsd c u c2 u2 : string) (e : exn) :
  fst (xmlFromURL env xml "XML_FILE") = Ok (c, u) ->
  fst (xmlFromURL env xsd "SCHEMA_FILE") = Ok (c2, u2) ->
  xmlschema_validate env c (if Py.truthy c2 then c2 else xsd) = Raise e ->
  isinstance e XMLSchemaValidationError = false ->
  isinstance e ParseError = true ->
  output env xml xsd false = "Faulty XML or XSD file was given." ++ nl ++ nl
  /\ output env xml xsd true
     = "Faulty XML or XSD file was given." ++ nl ++ nl
         ++ "Error: " ++ exn_str e ++ nl.
Proof.
  intros H1 H2 Hparse Hnot He.
  destruct (output_resolved env xml xsd false _ _ _ _ H1 H2) as (_ & Ho0 & _).
  destruct (output_resolved env xml xsd true _ _ _ _ H1 H2) as (_ & Ho1 & _).
  rewrite Ho0, Ho1.
  rewrite !(report_faulty env _ _ e) by assumption.
  cbn [snd stdout app]. rewrite !append_assoc, append_nil_r.
  split; reflexivity.
Qed.

Lemma faulty_file_report_witness :
  fst (xmlFromURL Sample.env "/data/xml/bad_syntax.xml" "XML_FILE")
  = Ok ("/data/xml/bad_syntax.xml", "/data/xml/bad_syntax.xml")
  /\ output Sample.env "/data/xml/bad_syntax.xml"
       "/data/schemas/SRA.sample.xsd" true
     = "Faulty XML or XSD file was given." ++ nl ++ nl
         ++ "Error: not well-formed (invalid token): line 1, column 2" ++ nl.
Proof.
  split; [reflexivity|].
  apply (proj2 (faulty_file_report Sample.env
                  "/data/xml/bad_syntax.xml" "/data/schemas/SRA.sample.xsd"
                  "/data/xml/bad_syntax.xml" "/data/xml/bad_syntax.xml"
                  "/data/schemas/SRA.sample.xsd" "/data/schemas/SRA.sample.xsd"
                  Sample.parse_error
                  eq_refl eq_refl eq_refl eq_refl eq_refl)).
Defined.

(** C9.  Whether the report speaks of a URL or of a file is decided by the
    first character of the resolved content and by nothing else: when the
    content starts with a slash the report names a file, by the base name
    of the content; otherwise it names the URL that was asked.  The scheme
    of the argument plays no part, so that a body fetched over HTTP that
    starts with a slash is reported as a file. *)
Theorem report_kind_by_leading_slash
        (env : Env) (xml xsd : string) (verbose : bool) (c u c2 u2 : string) :
  fst (xmlFromURL env xml "XML_FILE") = Ok (c, u) ->
  fst (xmlFromURL env xsd "SCHEMA_FILE") = Ok (c2, u2) ->
  let schema := if Py.truthy c2 then c2 else xsd in
  let head :=
    if Py.startswith "/" c
    then "The XML file: " ++ Py.basename c
    else "The XML from the URL:" ++ nl ++ u in
  (xmlschema_validate env c schema = Ok tt ->
   output env xml xsd verbose = head ++ nl ++ "is valid." ++ nl ++ nl)
  /\ (forall e,
         xmlschema_validate env c schema = Raise e ->
         isinstance e XMLSchemaValidationError = true ->
         output env xml xsd verbose
         = head ++ nl ++ "is invalid." ++ nl ++ nl
             ++ if verbose then "Error:" ++ nl ++ exn_str e ++ nl else "").
Proof.
  intros H1 H2 schema head.
  destruct (output_resolved env xml xsd verbose _ _ _ _ H1 H2) as (_ & Ho & _).
  rewrite Ho. fold (report_head c u) in head. split.
  - intros Hvalid. rewrite report_valid by exact Hvalid.
    cbn [snd stdout]. subst head.
    now rewrite !append_assoc, append_nil_r.
  - intros e Hinvalid He.
    rewrite (report_invalid env _ _ _ _ verbose e) by assumption.
    subst head. destruct verbose; cbn [snd stdout app];
      now rewrite !append_assoc, ?append_nil_r.
Qed.

Lemma report_kind_by_leading_slash_witness :
  http_argument Sample.env "http://example.com/where.txt"
  /\ fst (xmlFromURL Sample.env "http://example.com/where.txt" "XML_FILE")
     = Ok ("/data/xml/SAMPLE.xml", "http://example.com/where.txt")
  /\ output Sample.env "http://example.com/where.txt"
       "/data/schemas/SRA.sample.xsd" false
     = "The XML file: SAMPLE.xml" ++ nl ++ "is valid." ++ nl ++ nl.
Proof.
  split; [left; reflexivity|]. split; [reflexivity|].
  apply (proj1 (report_kind_by_leading_slash Sample.env
                  "http://example.com/where.txt" "/data/schemas/SRA.sample.xsd"
                  false "/data/xml/SAMPLE.xml" "http://example.com/where.txt"
                  "/data/schemas/SRA.sample.xsd" "/data/schemas/SRA.sample.xsd"
                  eq_refl eq_refl)).
  reflexivity.
Defined.

(** C10.  When both arguments are resolved, the validator is called once,
    on the resolved document and on a schema that is the resolved content
    when this is not empty, and the schema argument as it was given when
    the resolved content is the empty text. *)
Theorem schema_argument_kept_when_empty
        (env : Env) (xml xsd : string) (verbose : bool) (c u c2 u2 : string) :
  fst (xmlFromURL env xml "XML_FILE") = Ok (c, u) ->
  fst (xmlFromURL env xsd "SCHEMA_FILE") = Ok (c2, u2) ->
  validator_calls (snd (cli env xml xsd verbose))
  = [(c, if c2 =? "" then xsd else c2)].
Proof.
  intros H1 H2.
  destruct (output_resolved env xml xsd verbose _ _ _ _ H1 H2) as (_ & _ & Hc).
  rewrite Hc, validate_and_report_calls. cbn.
  rewrite truthy_eqb. now destruct (c2 =? "").
Qed.

Lemma schema_argument_kept_when_empty_witness :
  fst (xmlFromURL Sample.env "ftp://ftp.example.org/pub/SRA.sample.xsd"
         "SCHEMA_FILE")
  = Ok ("", "ftp://ftp.example.org/pub/SRA.sample.xsd")
  /\ validator_calls
       (snd (cli Sample.env "/data/xml/SAMPLE.xml"
               "ftp://ftp.example.org/pub/SRA.sample.xsd" false))
     = [("/data/xml/SAMPLE.xml", "ftp://ftp.example.org/pub/SRA.sample.xsd")].
Proof.
  split; [reflexivity|].
  apply (schema_argument_kept_when_empty Sample.env
           "/data/xml/SAMPLE.xml" "ftp://ftp.example.org/pub/SRA.sample.xsd"
           false "/data/xml/SAMPLE.xml" "/data/xml/SAMPLE.xml"
           "" "ftp://ftp.example.org/pub/SRA.sample.xsd" eq_refl eq_refl).
Defined.

(* ===================================================================== *)
(** ** The command, path by path *)
(* ===================================================================== *)

(** The first [try] block talks to the network and to nothing else. *)
Lemma resolve_network (env : Env) (xml xsd : string) :
  forallb network_event (snd (resolve env xml xsd)) = true.
Proof.
  unfold resolve.
  apply bind_network; [apply xmlFromURL_network|]. intros [c u].
  apply bind_network; [apply xmlFromURL_network|]. intros [c2 u2].
  reflexivity.
Qed.

(** [cli] in terms of its two [try] blocks. *)
Lemma cli_of_resolve (env : Env) (xml xsd : string) (verbose : bool) :
  cli env xml xsd verbose
  = match resolve env xml xsd with
    | (Ok v, l) =>
        (fst (validate_and_report env v verbose),
         (l ++ snd (validate_and_report env v verbose))%list)
    | (Raise e, l) => (Ok tt, (l ++ [Echo None (exn_str e)])%list)
    end.
Proof.
  unfold cli. destruct (resolve env xml xsd) as [[v|e] l]; cbn.
  - destruct (validate_and_report env v verbose) as [r l'].
    cbn. now rewrite app_nil_r.
  - now rewrite app_nil_r.
Qed.

(** The first [try] block, by what the resolver answers. *)
Lemma resolve_xml_failure (env : Env) (xml xsd : string) (e : exn)
      (l1 : list event) :
  xmlFromURL env xml "XML_FILE" = (Raise e, l1) ->
  resolve env xml xsd = (Raise e, l1).
Proof. intros H1. unfold resolve. now rewrite H1. Qed.

Lemma resolve_schema_failure (env : Env) (xml xsd c u : string) (e : exn)
      (l1 l2 : list event) :
  xmlFromURL env xml "XML_FILE" = (Ok (c, u), l1) ->
  xmlFromURL env xsd "SCHEMA_FILE" = (Raise e, l2) ->
  resolve env xml xsd = (Raise e, (l1 ++ l2)%list).
Proof. intros H1 H2. unfold resolve. rewrite H1. cbn. now rewrite H2. Qed.

Lemma resolve_success (env : Env) (xml xsd c u c2 u2 : string)
      (l1 l2 : list event) :
  xmlFromURL env xml "XML_FILE" = (Ok (c, u), l1) ->
  xmlFromURL env xsd "SCHEMA_FILE" = (Ok (c2, u2), l2) ->
  resolve env xml xsd = (Ok (resolved_as c u c2 xsd), (l1 ++ l2)%list).
Proof.
  intros H1 H2. unfold resolve. rewrite H1. cbn. rewrite H2. cbn.
  unfold resolved_as. rewrite app_nil_r.
  now destruct (Py.startswith "/" c).
Qed.

(** A printed line makes the output non-empty. *)
Lemma echo_stdout (l : list event) :
  existsb is_echo l = true -> stdout l <> "".
Proof.
  induction l as [|ev l IH]; cbn; [discriminate|].
  destruct ev; cbn; try exact IH.
  intros _. destruct message; discriminate.
Qed.

Lemma stdout_line (style : option colour) (message : string) :
  stdout [Echo style message] = message ++ nl.
Proof. reflexivity. Qed.

(** What is printed when the document cannot be resolved. *)
Lemma output_document_failure
      (env : Env) (xml xsd : string) (verbose : bool) (e : exn) :
  fst (xmlFromURL env xml "XML_FILE") = Raise e ->
  output env xml xsd verbose = exn_str e ++ nl.
Proof.
  intros H1.
  pose proof (xmlFromURL_network env xml "XML_FILE") as N1.
  destruct (xmlFromURL env xml "XML_FILE") as [r1 l1] eqn:E1.
  cbn in H1, N1. subst r1. unfold output.
  rewrite cli_of_resolve, (resolve_xml_failure env xml xsd e l1 E1).
  cbn [snd].
  now rewrite stdout_app, (network_stdout _ N1), stdout_line.
Qed.

(** X1.  When the document cannot be resolved, the command prints the
    message of the error and ends: the schema argument is not looked at (the
    only events besides the printed line are those of resolving the
    document) and the validator is not called. *)
Theorem document_failure_ends_command
        (env : Env) (xml xsd : string) (verbose : bool) (e : exn) :
  fst (xmlFromURL env xml "XML_FILE") = Raise e ->
  cli env xml xsd verbose
  = (Ok tt,
     (snd (xmlFromURL env xml "XML_FILE") ++ [Echo None (exn_str e)])%list)
  /\ output env xml xsd verbose = exn_str e ++ nl.
Proof.
  intros H1. split; [|now apply output_document_failure].
  rewrite cli_of_resolve.
  destruct (xmlFromURL env xml "XML_FILE") as [r1 l1] eqn:E1.
  cbn in H1. subst r1.
  now rewrite (resolve_xml_failure env xml xsd e l1 E1).
Qed.

Lemma document_failure_ends_command_witness :
  output Sample.env "/data/xml/nowhere.xml"
         "ftp://ftp.example.org/pub/SRA.sample.xsd" false
  = "Error: Invalid value for XML_FILE" ++ nl
      ++ "Path /data/xml/nowhere.xml does not exist." ++ nl ++ nl.
Proof.
  apply (proj2 (document_failure_ends_command Sample.env
                  "/data/xml/nowhere.xml"
                  "ftp://ftp.example.org/pub/SRA.sample.xsd" false
                  (Exception (path_does_not_exist "XML_FILE"
                                "/data/xml/nowhere.xml"))
                  eq_refl)).
Defined.

(** What is printed when the schema cannot be resolved. *)
Lemma output_schema_failure
      (env : Env) (xml xsd : string) (verbose : bool) (c u : string) (e : exn) :
  fst (xmlFromURL env xml "XML_FILE") = Ok (c, u) ->
  fst (xmlFromURL env xsd "SCHEMA_FILE") = Raise e ->
  output env xml xsd verbose = exn_str e ++ nl.
Proof.
  intros H1 H2.
  pose proof (xmlFromURL_network env xml "XML_FILE") as N1.
  pose proof (xmlFromURL_network env xsd "SCHEMA_FILE") as N2.
  destruct (xmlFromURL env xml "XML_FILE") as [r1 l1] eqn:E1.
  destruct (xmlFromURL env xsd "SCHEMA_FILE") as [r2 l2] eqn:E2.
  cbn in H1, H2, N1, N2. subst r1 r2. unfold output.
  rewrite cli_of_resolve, (resolve_schema_failure env xml xsd c u e l1 l2 E1 E2).
  cbn [snd].
  now rewrite !stdout_app, (network_stdout _ N1), (network_stdout _ N2),
    stdout_line.
Qed.

(** X2.  When the document is resolved and the schema cannot be, the
    command prints the message of that error and returns. *)
Theorem schema_failure_ends_command
        (env : Env) (xml xsd : string) (verbose : bool) (c u : string) (e : exn) :
  fst (xmlFromURL env xml "XML_FILE") = Ok (c, u) ->
  fst (xmlFromURL env xsd "SCHEMA_FILE") = Raise e ->
  fst (cli env xml xsd verbose) = Ok tt
  /\ output env xml xsd verbose = exn_str e ++ nl.
Proof.
  intros H1 H2.
  split; [|now apply (output_schema_failure env xml xsd verbose c u e)].
  rewrite cli_of_resolve.
  destruct (xmlFromURL env xml "XML_FILE") as [r1 l1] eqn:E1.
  destruct (xmlFromURL env xsd "SCHEMA_FILE") as [r2 l2] eqn:E2.
  cbn in H1, H2. subst r1 r2.
  now rewrite (resolve_schema_failure env xml xsd c u e l1 l2 E1 E2).
Qed.

Lemma schema_failure_ends_command_witness :
  output Sample.env "/data/xml/SAMPLE.xml" "http://example.com/" true
  = "Error: Content of the URL (http://example.com/)" ++ nl
      ++ "is not in XML format. Make sure the URL is correct." ++ nl ++ nl.
Proof.
  apply (proj2 (schema_failure_ends_command Sample.env
                  "/data/xml/SAMPLE.xml" "http://example.com/" true
                  "/data/xml/SAMPLE.xml" "/data/xml/SAMPLE.xml"
                  (Exception (content_not_xml
                                (mkResponse 200 "OK" "http://example.com/"
                                   (Some "text/html") "<html></html>")))
                  eq_refl eq_refl)).
Defined.

(** X3.  The validator is called at most once in a run: once, on the
    resolved document and schema, when both arguments were resolved, and
    not at all otherwise, whatever it answers and whatever the verbose flag
    is. *)
Theorem validator_called_after_resolution
        (env : Env) (xml xsd : string) (verbose : bool) :
  validator_calls (snd (cli env xml xsd verbose))
  = match fst (resolve env xml xsd) with
    | Ok v => [(xml_file v, schema_file v)]
    | Raise _ => []
    end.
Proof.
  rewrite cli_of_resolve.
  pose proof (resolve_network env xml xsd) as N.
  destruct (resolve env xml xsd) as [[v|e] l]; cbn [fst snd] in *;
    rewrite validator_calls_app, (network_validator_calls _ N).
  - apply validate_and_report_calls.
  - reflexivity.
Qed.

(** The validator raises another exception of its library: one line, the
    fixed message or, when asked for, the text of the error. *)
Lemma report_unexpected (env : Env) (v : resolved) (verbose : bool) (e : exn) :
  xmlschema_validate env (xml_file v) (schema_file v) = Raise e ->
  isinstance e XMLSchemaValidationError = false ->
  isinstance e ParseError = false ->
  isinstance e XMLSchemaException = true ->
  validate_and_report env v verbose
  = (Ok tt,
     [Validate (xml_file v) (schema_file v);
      Echo None (if verbose then "Error: " ++ exn_str e
                 else unexpected_error)]).
Proof.
  intros Hv H1 H2 H3. unfold validate_and_report, call. rewrite Hv.
  cbn. rewrite H1, H2, H3. destruct verbose; reflexivity.
Qed.

(** X4.  When the validator raises an exception of its library that is
    neither a validation error nor a parse error, the command names no file
    and no URL: without the verbose flag it prints an empty line and the
    advice to run with [--verbose], with the flag [Error: ] and the text of
    the exception. *)
Theorem unexpected_error_report
        (env : Env) (xml xsd c u c2 u2 : string) (e : exn) :
  fst (xmlFromURL env xml "XML_FILE") = Ok (c, u) ->
  fst (xmlFromURL env xsd "SCHEMA_FILE") = Ok (c2, u2) ->
  xmlschema_validate env c (if Py.truthy c2 then c2 else xsd) = Raise e ->
  isinstance e XMLSchemaValidationError = false ->
  isinstance e ParseError = false ->
  isinstance e XMLSchemaException = true ->
  output env xml xsd false
  = nl ++ "Validation ran into an unexpected error."
       ++ " Run command with --verbose option for more details" ++ nl ++ nl
  /\ output env xml xsd true = "Error: " ++ exn_str e ++ nl.
Proof.
  intros H1 H2 Hv Ha Hb Hc.
  destruct (output_resolved env xml xsd false _ _ _ _ H1 H2) as (_ & Ho0 & _).
  destruct (output_resolved env xml xsd true _ _ _ _ H1 H2) as (_ & Ho1 & _).
  rewrite Ho0, Ho1.
  rewrite !(report_unexpected env _ _ e) by assumption.
  split; reflexivity.
Qed.

Lemma unexpected_error_report_witness :
  output Sample.env "/data/schemas/SRA.sample.xsd"
         "/data/schemas/SRA.sample.xsd" true
  = "Error: cannot access resource" ++ nl.
Proof.
  apply (proj2 (unexpected_error_report Sample.env
                  "/data/schemas/SRA.sample.xsd" "/data/schemas/SRA.sample.xsd"
                  "/data/schemas/SRA.sample.xsd" "/data/schemas/SRA.sample.xsd"
                  "/data/schemas/SRA.sample.xsd" "/data/schemas/SRA.sample.xsd"
                  Sample.resource_error
                  eq_refl eq_refl eq_refl eq_refl eq_refl eq_refl)).
Defined.

(** X5.  The verbose flag changes nothing but what is printed after an
    exception of the validator: whether [cli] returns or raises does not
    depend on it, and when the arguments cannot be resolved or the
    validator accepts the document, the whole run, events and output, is
    the same with and without it. *)
Theorem verbose_only_adds_detail (env : Env) (xml xsd : string) :
  fst (cli env xml xsd true) = fst (cli env xml xsd false)
  /\ ((forall v,
          fst (resolve env xml xsd) = Ok v ->
          xmlschema_validate env (xml_file v) (schema_file v) = Ok tt) ->
      cli env xml xsd true = cli env xml xsd false).
Proof.
  rewrite !cli_of_resolve.
  destruct (resolve env xml xsd) as [[v|e] l]; cbn [fst];
    [|split; reflexivity].
  split.
  - unfold validate_and_report, call.
    destruct (xmlschema_validate env (xml_file v) (schema_file v)) as [[]|e].
    + cbn. destruct (xml_from_url v); reflexivity.
    + cbn. destruct (isinstance e XMLSchemaValidationError);
        [destruct (xml_from_url v); reflexivity|].
      destruct (isinstance e ParseError); [reflexivity|].
      destruct (isinstance e XMLSchemaException); reflexivity.
  - intros Hvalid. specialize (Hvalid v eq_refl).
    unfold validate_and_report, call. rewrite Hvalid. cbn.
    destruct (xml_from_url v); reflexivity.
Qed.

Lemma verbose_only_adds_detail_witness :
  cli Sample.env "http://example.com/SAMPLE.xml"
      "/data/schemas/SRA.sample.xsd" true
  = cli Sample.env "http://example.com/SAMPLE.xml"
        "/data/schemas/SRA.sample.xsd" false.
Proof.
  apply (proj2 (verbose_only_adds_detail Sample.env
                  "http://example.com/SAMPLE.xml"
                  "/data/schemas/SRA.sample.xsd")).
  intros v Hv. vm_compute in Hv. injection Hv as <-. reflexivity.
Defined.

(** X6.  The command is never silent when it returns: whenever the
    validator keeps to the exceptions [cli] expects, at least one line is
    printed, be it the error of a resolution, a report or a message about the
    validation. *)
Theorem command_prints_something
        (env : Env) (xml xsd : string) (verbose : bool) :
  raises_declared env ->
  existsb is_echo (snd (cli env xml xsd verbose)) = true
  /\ output env xml xsd verbose <> "".
Proof.
  intros Hdecl.
  assert (Hecho : existsb is_echo (snd (cli env xml xsd verbose)) = true).
  { rewrite cli_of_resolve.
    destruct (resolve env xml xsd) as [[v|e] l]; cbn [snd];
      rewrite existsb_app; apply Bool.orb_true_iff; right; [|reflexivity].
    unfold validate_and_report, call.
    destruct (xmlschema_validate env (xml_file v) (schema_file v))
      as [[]|e] eqn:Hv.
    - cbn. destruct (xml_from_url v); reflexivity.
    - specialize (Hdecl _ _ _ Hv). cbn.
      destruct (isinstance e XMLSchemaValidationError);
        [destruct (xml_from_url v); destruct verbose; reflexivity|].
      destruct (isinstance e ParseError); [destruct verbose; reflexivity|].
      cbn in Hdecl. rewrite Hdecl. destruct verbose; reflexivity. }
  split; [exact Hecho|]. now apply echo_stdout.
Qed.

Lemma command_prints_something_witness :
  raises_declared Sample.env
  /\ output Sample.env "ftp://ftp.example.org/pub/missing.xsd"
       "/data/schemas/SRA.sample.xsd" false <> "".
Proof.
  split; [exact sample_raises_declared|].
  apply (proj2 (command_prints_something Sample.env
                  "ftp://ftp.example.org/pub/missing.xsd"
                  "/data/schemas/SRA.sample.xsd" false
                  sample_raises_declared)).
Defined.

(** X7.  The second [try] block has no clause for an exception that is none
    of [XMLSchemaValidationError], [ParseError] and [XMLSchemaException]:
    when the validator raises one, it leaves [cli] as it is, nothing has
    been printed, and the exit code is 1. *)
Theorem undeclared_exception_escapes
        (env : Env) (xml xsd : string) (verbose : bool)
        (c u c2 u2 : string) (e : exn) :
  fst (xmlFromURL env xml "XML_FILE") = Ok (c, u) ->
  fst (xmlFromURL env xsd "SCHEMA_FILE") = Ok (c2, u2) ->
  xmlschema_validate env c (if Py.truthy c2 then c2 else xsd) = Raise e ->
  isinstance e XMLSchemaValidationError = false ->
  isinstance e ParseError = false ->
  isinstance e XMLSchemaException = false ->
  fst (cli env xml xsd verbose) = Raise e
  /\ output env xml xsd verbose = ""
  /\ exit_code env (Call xml xsd verbose) = 1.
Proof.
  intros H1 H2 Hv Ha Hb Hc. unfold exit_code.
  destruct (output_resolved env xml xsd verbose _ _ _ _ H1 H2)
    as (Hfst & Hout & _).
  rewrite Hfst, Hout.
  rewrite (validate_and_report_propagates env _ verbose e) by assumption.
  repeat split.
Qed.

Lemma undeclared_exception_escapes_witness :
  fst (cli Wild.env "/data/xml/SAMPLE.xml" "/data/schemas/SRA.sample.xsd" true)
  = Raise Wild.connection_reset
  /\ output Wild.env "/data/xml/SAMPLE.xml" "/data/schemas/SRA.sample.xsd" true
     = ""
  /\ exit_code Wild.env
       (Call "/data/xml/SAMPLE.xml" "/data/schemas/SRA.sample.xsd" true) = 1.
Proof.
  apply (undeclared_exception_escapes Wild.env
           "/data/xml/SAMPLE.xml" "/data/schemas/SRA.sample.xsd" true
           "/data/xml/SAMPLE.xml" "/data/xml/SAMPLE.xml"
           "/data/schemas/SRA.sample.xsd" "/data/schemas/SRA.sample.xsd"
           Wild.connection_reset
           eq_refl eq_refl eq_refl eq_refl eq_refl eq_refl).
Defined.

(* ===================================================================== *)
(** ** The resolver, path by path *)
(* ===================================================================== *)

(** X8.  An FTP error ([ftplib.Error]) at any step of the session becomes
    the failure [<error> (<url>)] with the advice to check the URL, and the
    session stops where the error occurred: a refused connection is not
    logged in to, a refused login asks for no file, and in none of the three
    cases is the connection closed. *)
Theorem ftp_error_at_each_step (env : Env) (url label : string) (e : exn) :
  let host := netloc (urlparse env url) in
  let cmd := "RETR " ++ path (urlparse env url) in
  scheme (urlparse env url) = "ftp" ->
  isinstance e ValueError = false ->
  isinstance e HTTPError = false ->
  isinstance e ftplib_Error = true ->
  (FTP env host = Raise e ->
   xmlFromURL env url label = (Raise (ftp_failure url e), [FtpOpen host]))
  /\ (FTP env host = Ok tt -> FTP_login env host = Raise e ->
      xmlFromURL env url label
      = (Raise (ftp_failure url e), [FtpOpen host; FtpLogin]))
  /\ (forall blocks,
         FTP env host = Ok tt -> FTP_login env host = Ok tt ->
         FTP_retrbinary env host cmd = (blocks, Some e) ->
         xmlFromURL env url label
         = (Raise (ftp_failure url e),
            [FtpOpen host; FtpLogin; FtpRetrbinary cmd])).
Proof.
  intros host cmd Hs Hv Hh Hf.
  unfold xmlFromURL, fetch, retrbinary, call. rewrite Hs.
  cbn -[String.append]. fold host. fold cmd.
  split; [|split].
  - intros Hopen. rewrite Hopen. cbn -[String.append].
    rewrite Hv, Hh, Hf. reflexivity.
  - intros Hopen Hlogin. rewrite Hopen, Hlogin. cbn -[String.append].
    rewrite Hv, Hh, Hf. reflexivity.
  - intros blocks Hopen Hlogin Hretr. rewrite Hopen, Hlogin, Hretr.
    cbn -[String.append]. rewrite Hv, Hh, Hf. reflexivity.
Qed.

Lemma ftp_error_at_each_step_witness :
  xmlFromURL Wild.env "ftp://ftp.busy.org/pub/a.xsd" "SCHEMA_FILE"
  = (Raise (Exception
              ("421 Too many connections. (ftp://ftp.busy.org/pub/a.xsd)" ++ nl
                 ++ "Make sure the URL is correct." ++ nl)),
     [FtpOpen "ftp.busy.org"])
  /\ xmlFromURL Wild.env "ftp://ftp.private.org/pub/a.xsd" "SCHEMA_FILE"
     = (Raise (Exception
                 ("530 Login incorrect. (ftp://ftp.private.org/pub/a.xsd)" ++ nl
                    ++ "Make sure the URL is correct." ++ nl)),
        [FtpOpen "ftp.private.org"; FtpLogin])
  /\ xmlFromURL Wild.env "ftp://ftp.example.org/pub/a.xsd" "SCHEMA_FILE"
     = (Raise (Exception
                 ("550 Failed to open file. (ftp://ftp.example.org/pub/a.xsd)"
                    ++ nl ++ "Make sure the URL is correct." ++ nl)),
        [FtpOpen "ftp.example.org"; FtpLogin; FtpRetrbinary "RETR /pub/a.xsd"]).
Proof.
  split; [|split].
  - apply (proj1 (ftp_error_at_each_step Wild.env
                    "ftp://ftp.busy.org/pub/a.xsd" "SCHEMA_FILE"
                    (Wild.error_temp "421 Too many connections.")
                    eq_refl eq_refl eq_refl eq_refl)).
    reflexivity.
  - apply (proj1 (proj2 (ftp_error_at_each_step Wild.env
                           "ftp://ftp.private.org/pub/a.xsd" "SCHEMA_FILE"
                           (Sample.error_perm "530 Login incorrect.")
                           eq_refl eq_refl eq_refl eq_refl)));
      reflexivity.
  - apply (proj2 (proj2 (ftp_error_at_each_step Wild.env
                           "ftp://ftp.example.org/pub/a.xsd" "SCHEMA_FILE"
                           (Sample.error_perm "550 Failed to open file.")
                           eq_refl eq_refl eq_refl eq_refl)) []);
      reflexivity.
Defined.

(** X9.  A successful FTP session is one connection to the host of the URL,
    one anonymous login, one [RETR] of the path of the URL and one close, in
    this order, and the resolver hands back the URL it was given. *)
Theorem ftp_session_in_order
        (env : Env) (url label : string) (blocks : list (list byte)) :
  let host := netloc (urlparse env url) in
  let cmd := "RETR " ++ path (urlparse env url) in
  scheme (urlparse env url) = "ftp" ->
  FTP env host = Ok tt ->
  FTP_login env host = Ok tt ->
  FTP_retrbinary env host cmd = (blocks, None) ->
  let run := xmlFromURL env url label in
  snd run = [FtpOpen host; FtpLogin; FtpRetrbinary cmd; FtpClose]
  /\ (exists content, fst run = Ok (content, url))
  /\ occurrences (FtpOpen host) (snd run) = 1
  /\ occurrences FtpLogin (snd run) = 1
  /\ occurrences (FtpRetrbinary cmd) (snd run) = 1
  /\ occurrences FtpClose (snd run) = 1.
Proof.
  intros host cmd Hs Hopen Hlogin Hretr run. subst run.
  rewrite (xmlFromURL_ftp_success env url label blocks Hs Hopen Hlogin Hretr).
  cbn [fst snd]. fold host. fold cmd.
  split; [reflexivity|]. split; [now exists ""|].
  unfold occurrences. cbn [filter event_eqb].
  rewrite !String.eqb_refl. repeat split.
Qed.

Lemma ftp_session_in_order_witness :
  snd (xmlFromURL Sample.env "ftp://ftp.example.org/pub/SRA.sample.xsd"
         "SCHEMA_FILE")
  = [FtpOpen "ftp.example.org"; FtpLogin;
     FtpRetrbinary "RETR /pub/SRA.sample.xsd"; FtpClose].
Proof.
  apply (proj1 (ftp_session_in_order Sample.env
                  "ftp://ftp.example.org/pub/SRA.sample.xsd" "SCHEMA_FILE"
                  [Sample.bytes "<xs:schema "; Sample.bytes "/>"]
                  eq_refl eq_refl eq_refl eq_refl)).
Defined.

(** X10.  An exception of the HTTP client that is neither a [ValueError] nor
    an [HTTPError] nor an FTP error (a failed connection, say) passes
    through the resolver untouched, without address or advice added, and the
    command prints its text as it is. *)
Theorem client_exception_passes_through
        (env : Env) (url label xsd : string) (verbose : bool) (e : exn) :
  (scheme (urlparse env url) =? "file") = false ->
  (scheme (urlparse env url) =? "ftp") = false ->
  requests_get env url = Raise e ->
  isinstance e ValueError = false ->
  isinstance e HTTPError = false ->
  isinstance e ftplib_Error = false ->
  xmlFromURL env url label = (Raise e, [HttpGet url])
  /\ output env url xsd verbose = exn_str e ++ nl.
Proof.
  intros Hfile Hftp Hget Hv Hh Hf.
  assert (Hrun : forall l, xmlFromURL env url l = (Raise e, [HttpGet url])).
  { intros l. unfold xmlFromURL, fetch, _process_http_reponse, call.
    rewrite Hfile, Hftp, Hget. cbn. rewrite Hv, Hh, Hf. reflexivity. }
  split; [apply Hrun|].
  apply output_document_failure. now rewrite Hrun.
Qed.

Lemma client_exception_passes_through_witness :
  output Sample.env "http://example.com/unreachable.xml"
         "/data/schemas/SRA.sample.xsd" false
  = "Failed to establish a new connection" ++ nl.
Proof.
  apply (proj2 (client_exception_passes_through Sample.env
                  "http://example.com/unreachable.xml" "XML_FILE"
                  "/data/schemas/SRA.sample.xsd" false Sample.ConnectionError
                  eq_refl eq_refl eq_refl eq_refl eq_refl eq_refl)).
Defined.

(** X11.  A response with the status 200 and no Content-Type header is not
    reported as content that is not XML: reading the header raises a
    [KeyError], which passes through the resolver, and the command prints
    the name of the key. *)
Theorem missing_content_type
        (env : Env) (url label xsd : string) (verbose : bool) (resp : Response) :
  http_argument env url ->
  requests_get env url = Ok resp ->
  status_code resp = 200 ->
  content_type resp = None ->
  xmlFromURL env url label
  = (Raise (mkExn [KeyError] "'content-type'"), [HttpGet url])
  /\ output env url xsd verbose = "'content-type'" ++ nl.
Proof.
  intros Hhttp Hget H200 Hct.
  assert (Hrun : forall l,
             xmlFromURL env url l
             = (Raise (mkExn [KeyError] "'content-type'"), [HttpGet url])).
  { intros l. rewrite (xmlFromURL_http env url l resp Hhttp Hget).
    now rewrite H200, Hct. }
  split; [apply Hrun|].
  rewrite (output_document_failure env url xsd verbose
             (mkExn [KeyError] "'content-type'")); [reflexivity|].
  now rewrite Hrun.
Qed.

Lemma missing_content_type_witness :
  http_argument Wild.env "http://example.com/bare.xml"
  /\ output Wild.env "http://example.com/bare.xml"
       "/data/schemas/SRA.sample.xsd" false
     = "'content-type'" ++ nl.
Proof.
  assert (Hu : http_argument Wild.env "http://example.com/bare.xml")
    by (left; reflexivity).
  split; [exact Hu|].
  apply (proj2 (missing_content_type Wild.env
                  "http://example.com/bare.xml" "XML_FILE"
                  "/data/schemas/SRA.sample.xsd" false _
                  Hu eq_refl eq_refl eq_refl)).
Defined.

(** X12.  When the resolver returns for an http or https argument, it hands
    back the address as given together with either the body of a response
    with the status 200 and an accepted Content-Type, or the empty text of a
    response with a status that is neither 200 nor between 400 and 599; in
    the second case the body and the Content-Type of the response are not
    looked at. *)
Theorem http_success_characterised
        (env : Env) (url label : string) (resp : Response) (c u : string) :
  http_argument env url ->
  requests_get env url = Ok resp ->
  fst (xmlFromURL env url label) = Ok (c, u)
  <-> u = url
      /\ ((status_code resp = 200
           /\ (exists ct, content_type resp = Some ct
                          /\ accepted_type ct = true)
           /\ c = text resp)
          \/ (status_code resp <> 200
              /\ ~ (400 <= status_code resp < 600)%nat
              /\ c = "")).
Proof.
  intros Hhttp Hget.
  rewrite (xmlFromURL_http env url label resp Hhttp Hget). cbn [fst].
  pose proof (http_error_msg_range resp) as Hrange. unfold codes_ok.
  destruct (Nat.eqb_spec (status_code resp) 200) as [H200|Hnot]; cbn [negb].
  - split.
    + destruct (content_type resp) as [ct|]; [|discriminate].
      destruct (accepted_type ct) eqn:Hacc; [|discriminate].
      intros [= <- <-]. split; [reflexivity|]. left.
      split; [exact H200|]. split; [now exists ct | reflexivity].
    + intros [-> [(_ & (ct & Hct & Hacc) & ->) | (Hne & _)]];
        [|contradiction].
      now rewrite Hct, Hacc.
  - split.
    + destruct (http_error_msg resp) as [m|]; [discriminate|].
      intros [= <- <-]. split; [reflexivity|]. right.
      split; [exact Hnot|]. split; [|reflexivity].
      intros Hin. apply Hrange in Hin. destruct Hin as [m Hm]. discriminate.
    + intros [-> [(H200 & _) | (_ & Hout & ->)]]; [contradiction|].
      destruct (http_error_msg resp) as [m|]; [|reflexivity].
      exfalso. apply Hout, Hrange. now exists m.
Qed.

Lemma http_success_characterised_witness :
  http_argument Sample.env "http://example.com/cached.xml"
  /\ fst (xmlFromURL Sample.env "http://example.com/cached.xml" "SCHEMA_FILE")
     = Ok ("", "http://example.com/cached.xml").
Proof.
  assert (Hu : http_argument Sample.env "http://example.com/cached.xml")
    by (left; reflexivity).
  split; [exact Hu|].
  apply (proj2 (http_success_characterised Sample.env
                  "http://example.com/cached.xml" "SCHEMA_FILE" _
                  "" "http://example.com/cached.xml" Hu eq_refl)).
  split; [reflexivity|]. right.
  split; [discriminate|]. split; [cbn; lia | reflexivity].
Defined.





(** X15.  [_process_http_reponse] checks the Content-Type only when it is
    called with the scheme [http] or [https]: with any other scheme the
    body of a response with the status 200 is returned whatever its
    Content-Type, even when there is none. *)
Theorem content_type_checked_for_http_only
        (env : Env) (url scheme : string) (resp : Response) :
  scheme <> "http" -> scheme <> "https" ->
  requests_get env url = Ok resp ->
  status_code resp = 200 ->
  _process_http_reponse env url scheme = (Ok (text resp), [HttpGet url]).
Proof.
  intros Hhttp Hhttps Hget H200.
  apply String.eqb_neq in Hhttp, Hhttps.
  unfold _process_http_reponse, call. rewrite Hget. cbn -[existsb].
  rewrite H200. cbn -[existsb].
  cbn [existsb]. rewrite Hhttp, Hhttps. reflexivity.
Qed.

Lemma content_type_checked_for_http_only_witness :
  _process_http_reponse Sample.env "http://example.com/" "gopher"
  = (Ok "<html></html>", [HttpGet "http://example.com/"]).
Proof.
  apply (content_type_checked_for_http_only Sample.env
           "http://example.com/" "gopher"
           (mkResponse 200 "OK" "http://example.com/"
              (Some "text/html") "<html></html>")).
  - discriminate.
  - discriminate.
  - reflexivity.
  - reflexivity.
Defined.

(** X16.  For an http or https document answered with a status between 400
    and 599 the command prints the text of the HTTP error, [<status> Client
    Error: <reason> for url: <address answered>] below 500 and [Server
    Error] from 500 on, followed directly, without a space, by the address
    as given, and on the next line the advice to check the URL. *)
Theorem http_error_output
        (env : Env) (url xsd : string) (verbose : bool) (resp : Response) :
  http_argument env url ->
  requests_get env url = Ok resp ->
  (400 <= status_code resp < 600)%nat ->
  output env url xsd verbose
  = Py.str_of_nat (status_code resp)
      ++ (if (status_code resp <? 500)%nat
          then " Client Error: " else " Server Error: ")
      ++ reason resp ++ " for url: " ++ resp_url resp ++ url ++ nl
      ++ "Make sure the URL is correct." ++ nl ++ nl.
Proof.
  intros Hhttp Hget Hrange.
  assert (Hmsg : http_error_msg resp
                 = Some (Py.str_of_nat (status_code resp)
                           ++ (if (status_code resp <? 500)%nat
                               then " Client Error: " else " Server Error: ")
                           ++ reason resp ++ " for url: " ++ resp_url resp)).
  { unfold http_error_msg.
    destruct (Nat.leb_spec 400 (status_code resp)); [|lia].
    destruct (Nat.ltb_spec (status_code resp) 500); cbn [andb];
      [reflexivity|].
    destruct (Nat.leb_spec 500 (status_code resp)); [|lia].
    destruct (Nat.ltb_spec (status_code resp) 600); [reflexivity | lia]. }
  assert (Hne : Nat.eqb (status_code resp) codes_ok = false)
    by (apply Nat.eqb_neq; unfold codes_ok; lia).
  rewrite (output_document_failure env url xsd verbose
             (Exception
                ((Py.str_of_nat (status_code resp)
                    ++ (if (status_code resp <? 500)%nat
                        then " Client Error: " else " Server Error: ")
                    ++ reason resp ++ " for url: " ++ resp_url resp)
                   ++ url ++ nl ++ "Make sure the URL is correct." ++ nl))).
  - cbn [exn_str Exception]. now rewrite !append_assoc.
  - rewrite (xmlFromURL_http env url "XML_FILE" resp Hhttp Hget).
    cbn [fst]. now rewrite Hne, Hmsg.
Qed.

Lemma http_error_output_witness :
  http_argument Sample.env "http://example.com/error.xml"
  /\ output Sample.env "http://example.com/error.xml"
       "/data/schemas/SRA.sample.xsd" false
     = "400 Client Error: Bad Request for url: http://example.com/error.xml"
         ++ "http://example.com/error.xml" ++ nl
         ++ "Make sure the URL is correct." ++ nl ++ nl.
Proof.
  assert (Hu : http_argument Sample.env "http://example.com/error.xml")
    by (left; reflexivity).
  split; [exact Hu|].
  apply (http_error_output Sample.env "http://example.com/error.xml"
           "/data/schemas/SRA.sample.xsd" false _ Hu eq_refl).
  cbn. lia.
Defined.


